(** * Domain Page Counter (app.py): a shallow embedding and its properties

    The development follows the layout of [app.py]:
    - [clean_domain] and the de-duplication done by the caller (lines 20-38, 188-191);
    - [get_page_count]: the loop over the four sitemap locations, the nested
      loop over the sitemaps of an index, and the homepage check (lines 40-118);
    - [process_domains_batch]: the thread pool, [as_completed] and the
      per-future handlers (lines 120-158).

    Python values are modelled as follows.  A [str] is a [string] whose
    characters are the code points 0..255; "a [str] or [None]" is an
    [option string]; an [int] is a [Z]; a call that may raise returns a
    [pyresult].  The network and the clock are not part of the program: they
    are parameters of the model ([network], [task_world]). *)

From Stdlib Require Import String Ascii List ZArith Bool Arith Lia Permutation.
From Stdlib Require Import DecimalString.
Import ListNotations.
Open Scope string_scope.

(* ================================================================== *)
(** * Exceptions and results *)
(* ================================================================== *)

(** The exception classes the program distinguishes in its [except] clauses,
    and those the library calls it makes are known to raise.  All of them are
    subclasses of [Exception]; [TimeoutError] is the name imported from
    [concurrent.futures] on line 6, used on lines 105 and 141. *)
Inductive exc_class : Type :=
| RequestException
| TimeoutError
| ParseError
| ValueError
| LookupError
| KeyError
| OtherException.

Record exc : Type := mkExc { exc_type : exc_class; exc_str : string }.

Inductive pyresult (A : Type) : Type :=
| Ret (a : A)
| Raise (e : exc).
Arguments Ret {A} a.
Arguments Raise {A} e.

Definition exc_class_eqb (a b : exc_class) : bool :=
  match a, b with
  | RequestException, RequestException
  | TimeoutError, TimeoutError
  | ParseError, ParseError
  | ValueError, ValueError
  | LookupError, LookupError
  | KeyError, KeyError
  | OtherException, OtherException => true
  | _, _ => false
  end.

(* ================================================================== *)
(** * The [str] methods the program calls *)
(* ================================================================== *)

Module Str.

Definition code (c : ascii) : nat := nat_of_ascii c.

(** [str.isspace] on the code points below 256. *)
Definition isspace (c : ascii) : bool :=
  let n := code c in
  (((9 <=? n) && (n <=? 13)) || ((28 <=? n) && (n <=? 32))
   || (n =? 133) || (n =? 160))%nat.

Definition is_empty (s : string) : bool :=
  match s with EmptyString => true | String _ _ => false end.

Fixpoint lstrip_with (p : ascii -> bool) (s : string) : string :=
  match s with
  | EmptyString => EmptyString
  | String c s' => if p c then lstrip_with p s' else s
  end.

Fixpoint rstrip_with (p : ascii -> bool) (s : string) : string :=
  match s with
  | EmptyString => EmptyString
  | String c s' =>
      let r := rstrip_with p s' in
      if p c && is_empty r then EmptyString else String c r
  end.

(** [s.strip()] *)
Definition strip (s : string) : string :=
  rstrip_with isspace (lstrip_with isspace s).

(** [s.rstrip('/')] *)
Definition rstrip_slash (s : string) : string :=
  rstrip_with (fun c => Ascii.eqb c "/") s.

(** [s.startswith(p)] *)
Definition startswith (s p : string) : bool := String.prefix p s.

Fixpoint drop (n : nat) (s : string) : string :=
  match n, s with
  | O, _ => s
  | S _, EmptyString => EmptyString
  | S n', String _ s' => drop n' s'
  end.

Fixpoint take (n : nat) (s : string) : string :=
  match n, s with
  | O, _ => EmptyString
  | S _, EmptyString => EmptyString
  | S n', String c s' => String c (take n' s')
  end.

(** [str.lower] on one code point below 256: A-Z, and the Latin-1 capitals
    0xC0-0xDE except the multiplication sign 0xD7. *)
Definition lower_char (c : ascii) : ascii :=
  let n := code c in
  if (((65 <=? n) && (n <=? 90))
      || ((192 <=? n) && (n <=? 222) && negb (n =? 215)))%nat
  then ascii_of_nat (n + 32) else c.

Fixpoint lower (s : string) : string :=
  match s with
  | EmptyString => EmptyString
  | String c s' => String (lower_char c) (lower s')
  end.

Fixpoint filter (p : ascii -> bool) (s : string) : string :=
  match s with
  | EmptyString => EmptyString
  | String c s' => if p c then String c (filter p s') else filter p s'
  end.

Fixpoint contains (c : ascii) (s : string) : bool :=
  match s with
  | EmptyString => false
  | String d s' => Ascii.eqb c d || contains c s'
  end.

Fixpoint forallb (p : ascii -> bool) (s : string) : bool :=
  match s with
  | EmptyString => true
  | String c s' => p c && forallb p s'
  end.

(** [s.split(sep)] for a one-character separator. *)
Fixpoint split (sep : ascii) (s : string) : list string :=
  match s with
  | EmptyString => [EmptyString]
  | String c s' =>
      if Ascii.eqb c sep then EmptyString :: split sep s'
      else match split sep s' with
           | [] => [String c EmptyString]
           | w :: ws => String c w :: ws
           end
  end.

(** [str(n)] for a non-negative [int]. *)
Definition of_nat (n : nat) : string := NilEmpty.string_of_uint (Nat.to_uint n).

End Str.

(** Truth value of "a [str] or [None]": [None] and the empty string are false. *)
Definition truthy (v : option string) : bool :=
  match v with
  | Some (String _ _) => true
  | _ => false
  end.

(* ================================================================== *)
(** * [urllib.parse.urlparse(url).netloc] *)
(* ================================================================== *)

Module Url.

Definition is_ascii_alpha (c : ascii) : bool :=
  let n := Str.code c in
  (((65 <=? n) && (n <=? 90)) || ((97 <=? n) && (n <=? 122)))%nat.

(** [scheme_chars]: letters, digits, [+], [-] and [.] *)
Definition is_scheme_char (c : ascii) : bool :=
  let n := Str.code c in
  is_ascii_alpha c
  || (((48 <=? n) && (n <=? 57)) || (n =? 43) || (n =? 45) || (n =? 46))%nat.

(** [_UNSAFE_URL_BYTES_TO_REMOVE]: tab, carriage return, line feed. *)
Definition is_unsafe (c : ascii) : bool :=
  let n := Str.code c in ((n =? 9) || (n =? 13) || (n =? 10))%nat.

(** [_WHATWG_C0_CONTROL_OR_SPACE] *)
Definition is_c0_or_space (c : ascii) : bool := (Str.code c <=? 32)%nat.

(** The text before the first [:] and the text after it, when there is one. *)
Fixpoint partition_colon (s : string) : option (string * string) :=
  match s with
  | EmptyString => None
  | String c s' =>
      if Ascii.eqb c ":" then Some (EmptyString, s')
      else match partition_colon s' with
           | Some (l, r) => Some (String c l, r)
           | None => None
           end
  end.

(** What is left of the URL once a well-formed scheme has been split off. *)
Definition after_scheme (url : string) : string :=
  match partition_colon url with
  | Some (String c l, rest) =>
      if is_ascii_alpha c && Str.forallb is_scheme_char (String c l)
      then rest else url
  | _ => url
  end.

Definition is_delim (c : ascii) : bool :=
  Ascii.eqb c "/" || Ascii.eqb c "?" || Ascii.eqb c "#".

(** [_splitnetloc]: the text up to the first of [/], [?], [#]. *)
Fixpoint until_delim (s : string) : string :=
  match s with
  | EmptyString => EmptyString
  | String c s' => if is_delim c then EmptyString else String c (until_delim s')
  end.

(** [s.rpartition(c)[2]]: the text after the last [c], all of [s] without [c]. *)
Fixpoint after_last (c : ascii) (s : string) : string :=
  match s with
  | EmptyString => EmptyString
  | String d s' =>
      if Str.contains c s' then after_last c s'
      else if Ascii.eqb d c then s' else s
  end.

(** [s.partition(c)]: the text before the first [c], whether there is one,
    and the text after it. *)
Fixpoint partition (c : ascii) (s : string) : string * bool * string :=
  match s with
  | EmptyString => (EmptyString, false, EmptyString)
  | String d s' =>
      if Ascii.eqb d c then (EmptyString, true, s')
      else let '(a, found, b) := partition c s' in (String d a, found, b)
  end.

Definition is_digit (c : ascii) : bool :=
  let n := Str.code c in ((48 <=? n) && (n <=? 57))%nat.

(** [ipaddress._BaseV6._HEX_DIGITS] *)
Definition is_hex (c : ascii) : bool :=
  let n := Str.code c in
  is_digit c || (((65 <=? n) && (n <=? 70)) || ((97 <=? n) && (n <=? 102)))%nat.

(** [int(s, 10)] for a text of decimal digits. *)
Definition decimal (s : string) : N :=
  fold_left (fun acc c => (10 * acc + (N_of_ascii c - 48))%N) (list_ascii_of_string s) 0%N.

(** [ipaddress._BaseV4._parse_octet] returns: a decimal number of at most
    three digits, without a leading zero, not above 255. *)
Definition octet_ok (o : string) : bool :=
  negb (Str.is_empty o)
  && Str.forallb is_digit o
  && (String.length o <=? 3)%nat
  && (String.eqb o "0" || negb (Str.startswith o "0"))
  && (decimal o <=? 255)%N.

(** [ipaddress.IPv4Address(s)] returns. *)
Definition ipv4_ok (s : string) : bool :=
  negb (Str.contains "/" s)
  && negb (Str.is_empty s)
  && (length (Str.split "." s) =? 4)%nat
  && forallb octet_ok (Str.split "." s).

(** [ipaddress._BaseV6._parse_hextet] returns. *)
Definition hextet_ok (h : string) : bool :=
  negb (Str.is_empty h) && Str.forallb is_hex h && (String.length h <=? 4)%nat.

Fixpoint index_of_empty (l : list string) : nat :=
  match l with
  | [] => 0
  | x :: l' => if Str.is_empty x then 0 else S (index_of_empty l')
  end.

(** The second half of [ipaddress._BaseV6._ip_int_from_string], on the parts
    between the colons: at most nine parts; at most one empty part that is
    neither the first nor the last (the place of [::]); without it, eight
    hextets; with it, an empty first or last part only next to it, at most
    seven hextets, and every part that is read a hextet. *)
Definition hextets_ok (parts : list string) : bool :=
  let n := length parts in
  if (9 <? n)%nat then false
  else
    let middle := removelast (tl parts) in
    match List.filter Str.is_empty middle with
    | [] => (n =? 8)%nat && forallb hextet_ok parts
    | [_] =>
        let skip_index := S (index_of_empty middle) in
        let first_empty := Str.is_empty (hd EmptyString parts) in
        let last_empty := Str.is_empty (last parts EmptyString) in
        let parts_hi := if first_empty then skip_index - 1 else skip_index in
        let parts_lo :=
          if last_empty then n - skip_index - 1 - 1 else n - skip_index - 1 in
        (negb first_empty || (parts_hi =? 0)%nat)
        && (negb last_empty || (parts_lo =? 0)%nat)
        && (1 <=? 8 - (parts_hi + parts_lo))%nat
        && forallb hextet_ok (firstn parts_hi parts)
        && forallb hextet_ok (skipn (n - parts_lo) parts)
    | _ => false
    end.

(** [ipaddress.IPv6Address(s)] returns: no [/]; a scope after [%], when
    there is one, that is not empty and holds no [%]; at least three parts
    between colons; a last part with a dot is an IPv4 address and counts for
    two hextets. *)
Definition ipv6_ok (address : string) : bool :=
  if Str.contains "/" address then false
  else
    let '(addr, sep, scope_id) := partition "%" address in
    if sep && (Str.is_empty scope_id || Str.contains "%" scope_id) then false
    else if Str.is_empty addr then false
    else
      let parts := Str.split ":" addr in
      if (length parts <? 3)%nat then false
      else if Str.contains "." (last parts EmptyString) then
        ipv4_ok (last parts EmptyString)
        && hextets_ok (removelast parts ++ ["0"; "0"])%list
      else hextets_ok parts.

Fixpoint skip_hex (s : string) : string :=
  match s with
  | EmptyString => EmptyString
  | String c s' => if is_hex c then skip_hex s' else s
  end.

(** [re.match(r"\Av[a-fA-F0-9]+\..+\Z", hostname)] matches. *)
Definition ipvfuture_ok (hostname : string) : bool :=
  match hostname with
  | String v (String h rest) =>
      Ascii.eqb v "v" && is_hex h
      && match skip_hex rest with
         | String dot (String c tail) =>
             Ascii.eqb dot "." && negb (Str.contains "010" (String c tail))
         | _ => false
         end
  | _ => false
  end.

Definition hex_digit (n : nat) : ascii :=
  ascii_of_nat (if (n <? 10)%nat then 48 + n else 87 + n).

(** One character of [repr(s)], for a text quoted with [quote]. *)
Definition repr_char (quote c : ascii) : string :=
  let n := Str.code c in
  if Ascii.eqb c quote || Ascii.eqb c "\" then String "\" (String c EmptyString)
  else if (n =? 9)%nat then "\t"
  else if (n =? 10)%nat then "\n"
  else if (n =? 13)%nat then "\r"
  else if ((n <? 32) || ((127 <=? n) && (n <=? 160)) || (n =? 173))%nat
  then String "\" (String "x" (String (hex_digit (n / 16))
                                 (String (hex_digit (n mod 16)) EmptyString)))
  else String c EmptyString.

Fixpoint repr_chars (quote : ascii) (s : string) : string :=
  match s with
  | EmptyString => EmptyString
  | String c s' => repr_char quote c ++ repr_chars quote s'
  end.

(** [repr(s)] on code points below 256. *)
Definition repr (s : string) : string :=
  let double : ascii := ascii_of_nat 34 in
  let quote : ascii :=
    if Str.contains "'" s && negb (Str.contains double s) then double else "'"%char in
  String quote (repr_chars quote s ++ String quote EmptyString).

(** [_check_bracketed_host]: the message of the [ValueError] it raises, if any. *)
Definition check_bracketed_host (hostname : string) : option string :=
  if Str.startswith hostname "v" then
    if ipvfuture_ok hostname then None else Some "IPvFuture address is invalid"
  else if ipv4_ok hostname then Some "An IPv4 address cannot be in brackets"
  else if ipv6_ok hostname then None
  else Some (repr hostname ++ " does not appear to be an IPv4 or IPv6 address").

(** [_check_bracketed_netloc]: the message of the [ValueError] it raises, if any. *)
Definition check_bracketed_netloc (netloc : string) : option string :=
  let hostname_and_port := after_last "@" netloc in
  let '(before_bracket, have_open_br, bracketed) := partition "[" hostname_and_port in
  if have_open_br then
    if negb (Str.is_empty before_bracket) then Some "Invalid IPv6 URL"
    else
      let '(hostname, _, port) := partition "]" bracketed in
      if negb (Str.is_empty port) && negb (Str.startswith port ":")
      then Some "Invalid IPv6 URL"
      else check_bracketed_host hostname
  else
    let '(hostname, _, _) := partition ":" hostname_and_port in
    check_bracketed_host hostname.

(** [urlsplit(url).netloc]: strip leading control characters, delete
    tab/CR/LF, split the scheme, and when [//] follows take the network
    location.  A network location with an unmatched square bracket raises
    [ValueError], and so does one with both brackets that
    [_check_bracketed_netloc] rejects.  (The NFKC check of [_checknetloc]
    never fires on code points below 256.) *)
Definition netloc (url : string) : pyresult string :=
  let url := Str.filter (fun c => negb (is_unsafe c))
                        (Str.lstrip_with is_c0_or_space url) in
  let rest := after_scheme url in
  if Str.startswith rest "//" then
    let nl := until_delim (Str.drop 2 rest) in
    if xorb (Str.contains "[" nl) (Str.contains "]" nl)
    then Raise (mkExc ValueError "Invalid IPv6 URL")
    else if Str.contains "[" nl && Str.contains "]" nl then
      match check_bracketed_netloc nl with
      | Some message => Raise (mkExc ValueError message)
      | None => Ret nl
      end
    else Ret nl
  else Ret EmptyString.

End Url.

(* ================================================================== *)
(** * [clean_domain] (lines 20-38) *)
(* ================================================================== *)

(** [re.sub(r'^www\.', '', s)]: the pattern is anchored, so at most the one
    occurrence at the start is removed. *)
Definition sub_leading_www (s : string) : string :=
  if Str.startswith s "www." then Str.drop 4 s else s.

Definition clean_domain (url_or_domain : option string) : pyresult (option string) :=
  if negb (truthy url_or_domain) then Ret None
  else
    match url_or_domain with
    | None => Ret None
    | Some url_or_domain =>
        let url_or_domain := Str.strip url_or_domain in
        let domain :=
          if Str.startswith url_or_domain "http://"
             || Str.startswith url_or_domain "https://"
          then Url.netloc url_or_domain
          else Ret url_or_domain in
        match domain with
        | Raise e => Raise e
        | Ret domain =>
            let domain := sub_leading_www (Str.lower domain) in
            let domain := Str.rstrip_slash domain in
            if truthy (Some domain) then Ret (Some domain) else Ret None
        end
    end.

(* ================================================================== *)
(** * The caller's preparation of the batch (lines 188-191) *)
(* ================================================================== *)

Definition pystr_eqb (a b : option string) : bool :=
  match a, b with
  | Some x, Some y => String.eqb x y
  | None, None => true
  | _, _ => false
  end.

(** [list(dict.fromkeys(l))]: the first occurrence of every key, in order. *)
Fixpoint dict_fromkeys (l : list (option string)) : list (option string) :=
  match l with
  | [] => []
  | k :: l' => k :: List.filter (fun k' => negb (pystr_eqb k k')) (dict_fromkeys l')
  end.

(** [[f(x) for x in l]] for an [f] that may raise. *)
Fixpoint comprehension {A B} (f : A -> pyresult B) (l : list A) : pyresult (list B) :=
  match l with
  | [] => Ret []
  | x :: l' =>
      match f x with
      | Raise e => Raise e
      | Ret y =>
          match comprehension f l' with
          | Raise e => Raise e
          | Ret ys => Ret (y :: ys)
          end
      end
  end.

Definition unique_domains (url_input : string) : pyresult (list (option string)) :=
  let lines :=
    map Str.strip
        (List.filter (fun line => truthy (Some (Str.strip line)))
                     (Str.split "010" url_input)) in
  match comprehension (fun line => clean_domain (Some line)) lines with
  | Raise e => Raise e
  | Ret domains =>
      let domains := List.filter truthy domains in
      Ret (dict_fromkeys domains)
  end.

(* ================================================================== *)
(** * Parsed XML ([xml.etree.ElementTree]) *)
(* ================================================================== *)

#[warnings="-register-all"]
Inductive Element : Type :=
| Elem (tag : string) (text : option string) (children : list Element).

Definition tag_of (e : Element) : string := let 'Elem t _ _ := e in t.
Definition text_of (e : Element) : option string := let 'Elem _ x _ := e in x.
Definition children_of (e : Element) : list Element := let 'Elem _ _ cs := e in cs.

(** Document order: an element, then the subtrees of its children. *)
Fixpoint iter (e : Element) : list Element :=
  match e with
  | Elem _ _ cs => e :: flat_map iter cs
  end.

(** [e.findall('.//' + tag)]: every element strictly below [e] with that tag. *)
Definition findall_descendants (e : Element) (tag : string) : list Element :=
  List.filter (fun d => String.eqb (tag_of d) tag) (flat_map iter (children_of e)).

(** [e.find(tag)]: the first child of [e] with that tag. *)
Definition find_child (e : Element) (tag : string) : option Element :=
  List.find (fun d => String.eqb (tag_of d) tag) (children_of e).

Definition NS : string := "{http://www.sitemaps.org/schemas/sitemap/0.9}".
Definition SITEMAP : string := NS ++ "sitemap".
Definition LOC : string := NS ++ "loc".
Definition URL : string := NS ++ "url".

(* ================================================================== *)
(** * The HTTP session ([requests.Session]) *)
(* ================================================================== *)

(** A response body is identified with what [ElementTree.fromstring] makes of
    it: the tree of a well-formed document; a text that is not well-formed;
    a document that declares a multi-byte encoding (the parser supports
    none); a document that declares an encoding Python does not know. *)
Inductive body : Type :=
| WellFormed (root : Element)
| Malformed
| MultiByteEncoding
| UnknownEncoding (name : string).

Record Response : Type := mkResponse { status_code : Z; content : body }.

Record request : Type := GET { req_url : string; req_timeout : Z }.

(** The world outside: what a GET returns or raises, given the requests the
    session has issued before it.  Nothing is assumed about it. *)
Definition network : Type := list request -> request -> pyresult Response.

(** [session.get(url, timeout=t)]: the answer, and the log with the request added. *)
Definition session_get (net : network) (url : string) (t : Z) (log : list request)
  : pyresult Response * list request :=
  let rq := GET url t in (net log rq, (log ++ [rq])%list).

(** [ElementTree.fromstring(content)]: the root of the tree, or one of the
    three exceptions the parser raises, [ParseError], [ValueError] and
    [LookupError]. *)
Definition fromstring (b : body) : pyresult Element :=
  match b with
  | WellFormed root => Ret root
  | Malformed => Raise (mkExc ParseError "not well-formed")
  | MultiByteEncoding =>
      Raise (mkExc ValueError "multi-byte encodings are not supported")
  | UnknownEncoding name =>
      Raise (mkExc LookupError ("unknown encoding: " ++ name))
  end.

(* ================================================================== *)
(** * [get_page_count] (lines 40-118) *)
(* ================================================================== *)

(** Lines 46-51. *)
Definition sitemap_urls (domain : string) : list string :=
  [ "https://" ++ domain ++ "/sitemap.xml";
    "https://www." ++ domain ++ "/sitemap.xml";
    "https://" ++ domain ++ "/sitemap_index.xml";
    "https://www." ++ domain ++ "/sitemap_index.xml" ].

(** Lines 76-80: the [loc.text] of every sitemap element that has a [loc] child. *)
Fixpoint individual_sitemaps (sitemap_elements : list Element) : list (option string) :=
  match sitemap_elements with
  | [] => []
  | sitemap :: rest =>
      match find_child sitemap LOC with
      | Some loc => text_of loc :: individual_sitemaps rest
      | None => individual_sitemaps rest
      end
  end.

(** Line 89: [len(sub_root.findall('.//{...}url'))]. *)
Definition count_urls (root : Element) : Z :=
  Z.of_nat (length (findall_descendants root URL)).

(** Lines 83-91, the loop over [individual_sitemaps[:10]] (the slice is taken
    by the caller of this function).  A [loc] without text gives [None];
    [session.get(None)] raises [MissingSchema] before anything is sent, and
    the bare [except] moves on.  Every exception raised in the body is
    swallowed by that [except]. *)
Fixpoint count_individual_sitemaps (net : network) (timeout_seconds : Z)
    (sitemaps : list (option string)) (total_pages : Z) (log : list request)
  : Z * list request :=
  match sitemaps with
  | [] => (total_pages, log)
  | None :: rest =>
      count_individual_sitemaps net timeout_seconds rest total_pages log
  | Some individual_sitemap :: rest =>
      let (sub_response, log) := session_get net individual_sitemap timeout_seconds log in
      match sub_response with
      | Raise _ => count_individual_sitemaps net timeout_seconds rest total_pages log
      | Ret sub_response =>
          if (status_code sub_response =? 200)%Z then
            match fromstring (content sub_response) with
            | Raise _ => count_individual_sitemaps net timeout_seconds rest total_pages log
            | Ret sub_root =>
                count_individual_sitemaps net timeout_seconds rest
                  (total_pages + count_urls sub_root)%Z log
            end
          else count_individual_sitemaps net timeout_seconds rest total_pages log
      end
  end.

Definition index_method (n : nat) : string :=
  "Sitemap index (" ++ Str.of_nat n ++ " sitemaps)".

(** Line 105: the classes the outer [except] catches. *)
Definition caught_line_105 (e : exc) : bool :=
  exc_class_eqb (exc_type e) RequestException
  || exc_class_eqb (exc_type e) TimeoutError.

(** Line 102: the class the inner [except] catches. *)
Definition caught_line_102 (e : exc) : bool :=
  exc_class_eqb (exc_type e) ParseError.

(** Lines 63-106, the loop over [sitemap_urls].  It is entered with
    [total_pages = 0] and [method = "No sitemap found"] and leaves them
    untouched until a [break]. *)
Fixpoint try_sitemap_urls (net : network) (timeout_seconds : Z)
    (urls : list string) (total_pages : Z) (method : string) (log : list request)
  : pyresult (Z * string) * list request :=
  match urls with
  | [] => (Ret (total_pages, method), log)
  | sitemap_url :: rest =>
      let (response, log) := session_get net sitemap_url timeout_seconds log in
      match response with
      | Raise e =>
          if caught_line_105 e
          then try_sitemap_urls net timeout_seconds rest total_pages method log
          else (Raise e, log)
      | Ret response =>
          if (status_code response =? 200)%Z then
            match fromstring (content response) with
            | Raise e =>
                if caught_line_102 e || caught_line_105 e
                then try_sitemap_urls net timeout_seconds rest total_pages method log
                else (Raise e, log)
            | Ret root =>
                let sitemap_elements := findall_descendants root SITEMAP in
                match sitemap_elements with
                | _ :: _ =>
                    let sitemaps := individual_sitemaps sitemap_elements in
                    let (total_pages, log) :=
                      count_individual_sitemaps net timeout_seconds
                        (firstn 10 sitemaps) total_pages log in
                    (Ret (total_pages, index_method (length sitemaps)), log)
                | [] =>
                    (Ret (count_urls root, "Single sitemap"), log)
                end
            end
          else try_sitemap_urls net timeout_seconds rest total_pages method log
      end
  end.

(** Lines 108-116. *)
Definition homepage_check (net : network) (domain : string)
    (total_pages : Z) (method : string) (log : list request)
  : (Z * string) * list request :=
  if (total_pages =? 0)%Z then
    let (response, log) := session_get net ("https://" ++ domain) 5 log in
    match response with
    | Raise _ => ((total_pages, "Domain inaccessible"), log)
    | Ret response =>
        if (status_code response =? 200)%Z
        then ((1%Z, "Homepage only (estimate)"), log)
        else ((total_pages, method), log)
    end
  else ((total_pages, method), log).

(** [get_page_count(domain, timeout_seconds)], run on a session whose log of
    requests is [log]: what it returns or raises, and the log afterwards.
    (The default of 15 seconds is never used: the only caller passes 20.) *)
Definition get_page_count (net : network) (domain : option string)
    (timeout_seconds : Z) (log : list request)
  : pyresult (Z * string) * list request :=
  match domain with
  | None | Some EmptyString => (Ret (0%Z, "Invalid domain"), log)
  | Some domain =>
      match try_sitemap_urls net timeout_seconds (sitemap_urls domain)
                             0 "No sitemap found" log with
      | (Raise e, log) => (Raise e, log)
      | (Ret (total_pages, method), log) =>
          let (r, log) := homepage_check net domain total_pages method log in
          (Ret r, log)
      end
  end.

(* ================================================================== *)
(** * [process_domains_batch] (lines 120-158) *)
(* ================================================================== *)

(** What the outside world decides for the task submitted [i]-th: the network
    its session talks to, and the time, in seconds after the call of
    [as_completed], at which its future completes.  Nothing is assumed about
    either, so every schedule of the ten workers is covered. *)
Record task_world : Type := mkTask { tw_net : network; tw_done_at : Z }.

(** A future: its identity, its completion time and the outcome of its task. *)
Record Future : Type := mkFuture {
  fut_id : nat;
  fut_done_at : Z;
  fut_outcome : pyresult (Z * string)
}.

Record DomainResult : Type := mkResult {
  Domain : option string;
  Pages : Z;
  Method : string
}.

(** Line 127: [executor.submit(get_page_count, domain, 20)]. *)
Definition submit (world : nat -> task_world) (i : nat) (domain : option string) : Future :=
  mkFuture i (tw_done_at (world i))
           (fst (get_page_count (tw_net (world i)) domain 20 [])).

(** Lines 126-129: the dictionary [future_to_domain], in insertion order. *)
Fixpoint submit_all (world : nat -> task_world) (i : nat)
    (domains : list (option string)) : list (Future * option string) :=
  match domains with
  | [] => []
  | domain :: rest => (submit world i domain, domain) :: submit_all world (S i) rest
  end.

(** [future_to_domain[future]] *)
Fixpoint dict_get (d : list (Future * option string)) (f : Future)
  : pyresult (option string) :=
  match d with
  | [] => Raise (mkExc KeyError "")
  | (g, v) :: d' => if (fut_id g =? fut_id f)%nat then Ret v else dict_get d' f
  end.

Fixpoint insert_by_completion (f : Future) (l : list Future) : list Future :=
  match l with
  | [] => [f]
  | g :: l' =>
      if (fut_done_at f <=? fut_done_at g)%Z then f :: l
      else g :: insert_by_completion f l'
  end.

(** [as_completed(fs, timeout)]: the futures that complete within [timeout]
    seconds, in the order in which they complete (futures that complete at
    the same time in the order of submission, one of the orders the library
    allows), and then, when some future is still pending at that time,
    [TimeoutError]. *)
Definition as_completed (fs : list Future) (timeout : Z)
  : list Future * option exc :=
  let finished := List.filter (fun f => (fut_done_at f <=? timeout)%Z) fs in
  let pending := List.filter (fun f => negb (fut_done_at f <=? timeout)%Z) fs in
  (fold_right insert_by_completion [] finished,
   match pending with
   | [] => None
   | _ :: _ =>
       Some (mkExc TimeoutError
                   (Str.of_nat (length pending) ++ " (of "
                    ++ Str.of_nat (length fs) ++ ") futures unfinished"))
   end).

(** [future.result(timeout=t)] called at time [now]: the outcome of the task
    when the future completes by [now + t], and [TimeoutError] otherwise. *)
Definition future_result (f : Future) (now t : Z) : pyresult (Z * string) :=
  if (fut_done_at f <=? now + t)%Z then fut_outcome f
  else Raise (mkExc TimeoutError "").

(** Lines 134-152: the record appended for one future. *)
Definition handle_result (domain : option string) (r : pyresult (Z * string))
  : DomainResult :=
  match r with
  | Ret (pages, method) => mkResult domain pages method
  | Raise e =>
      if exc_class_eqb (exc_type e) TimeoutError
      then mkResult domain 0 "Timeout"
      else mkResult domain 0 ("Error: " ++ Str.take 50 (exc_str e))
  end.

(** The state of the loop on lines 132-156: the clock, the results, the
    counter and the calls of [progress_callback] made so far. *)
Record loop_state : Type := mkLoop {
  now : Z;
  results : list DomainResult;
  completed : Z;
  progress_calls : list (Z * Z)
}.

(** Lines 132-156, over the futures [as_completed] yields.  A future is
    yielded no earlier than it completes. *)
Fixpoint completion_loop (future_to_domain : list (Future * option string))
    (total : Z) (progress_callback : bool)
    (yielded : list Future) (st : loop_state) : pyresult loop_state :=
  match yielded with
  | [] => Ret st
  | future :: rest =>
      let now := Z.max (now st) (fut_done_at future) in
      match dict_get future_to_domain future with
      | Raise e => Raise e
      | Ret domain =>
          let results :=
            (results st ++ [handle_result domain (future_result future now 25)])%list in
          let completed := (completed st + 1)%Z in
          let calls :=
            if progress_callback
            then (progress_calls st ++ [(completed, total)])%list
            else progress_calls st in
          completion_loop future_to_domain total progress_callback rest
                          (mkLoop now results completed calls)
      end
  end.

(** [process_domains_batch(domains, progress_callback)]: what it returns or
    raises.  [progress_callback] tells whether a callback was passed. *)
Definition process_domains_batch (world : nat -> task_world)
    (domains : list (option string)) (progress_callback : bool)
  : pyresult (list DomainResult) :=
  let future_to_domain := submit_all world 0 domains in
  let (yielded, expiry) := as_completed (map fst future_to_domain) 300 in
  match completion_loop future_to_domain (Z.of_nat (length domains))
                        progress_callback yielded (mkLoop 0 [] 0 []) with
  | Raise e => Raise e
  | Ret st =>
      match expiry with
      | Some e => Raise e
      | None => Ret (results st)
      end
  end.

(* ================================================================== *)
(** * Vocabulary of the specification *)
(* ================================================================== *)

(** The method labels the specification documents (section 8, "closed set"). *)
Inductive documented_method : string -> Prop :=
| dm_single : documented_method "Single sitemap"
| dm_index (n : nat) : documented_method (index_method n)
| dm_homepage : documented_method "Homepage only (estimate)"
| dm_inaccessible : documented_method "Domain inaccessible"
| dm_timeout : documented_method "Timeout"
| dm_error (msg : string) : documented_method ("Error: " ++ msg).

(** The host of a network location (RFC 3986: authority = [ userinfo "@" ]
    host [ ":" port ]): what follows the user information and precedes the
    port. *)
Definition host_of_netloc (netloc : string) : string :=
  let hostinfo := Url.after_last "@" netloc in
  let '(_, have_open_br, bracketed) := Url.partition "[" hostinfo in
  if have_open_br then let '(hostname, _, _) := Url.partition "]" bracketed in hostname
  else let '(hostname, _, _) := Url.partition ":" hostinfo in hostname.

(** A character of a plain network location: above the space, not white
    space, none of the delimiters [/], [?], [#], and no square bracket. *)
Definition is_location_char (c : ascii) : bool :=
  (32 <? Str.code c)%nat && negb (Str.isspace c) && negb (Url.is_delim c)
  && negb (Ascii.eqb "[" c) && negb (Ascii.eqb "]" c).

Definition plain_location (loc : string) : bool :=
  Str.forallb is_location_char loc.

(** What follows the network location in a URL: nothing, or a path, a query
    or a fragment. *)
Definition path_query_fragment (rest : string) : bool :=
  match rest with
  | EmptyString => true
  | String c _ => Url.is_delim c
  end.

Definition get_req (t : Z) (url : string) : request := GET url t.

(** A candidate is passed over: the GET raised what line 105 catches, or the
    status is not 200, or the parser raised what line 102 or line 105
    catches. *)
Definition skipped (r : pyresult Response) : bool :=
  match r with
  | Raise e => caught_line_105 e
  | Ret resp =>
      negb (status_code resp =? 200)%Z
      || match fromstring (content resp) with
         | Raise e => caught_line_102 e || caught_line_105 e
         | Ret _ => false
         end
  end.

(** A GET succeeds: status 200 and a body the parser accepts; its tree. *)
Definition parsed (r : pyresult Response) : option Element :=
  match r with
  | Ret resp =>
      if (status_code resp =? 200)%Z then
        match fromstring (content resp) with
        | Ret root => Some root
        | Raise _ => None
        end
      else None
  | Raise _ => None
  end.

(** A candidate makes the parser fail: status 200 and a body on which the
    parser raises; the exception. *)
Definition parser_fault (r : pyresult Response) : option exc :=
  match r with
  | Ret resp =>
      if (status_code resp =? 200)%Z then
        match fromstring (content resp) with
        | Ret _ => None
        | Raise e => Some e
        end
      else None
  | Raise _ => None
  end.

(** The candidates [urls], requested one after the other from [log] on, are
    all passed over. *)
Fixpoint all_skipped (net : network) (t : Z) (urls : list string)
    (log : list request) : bool :=
  match urls with
  | [] => true
  | u :: rest =>
      skipped (net log (GET u t)) && all_skipped net t rest (log ++ [GET u t])%list
  end.

(** The entries of [individual_sitemaps] that carry a URL. *)
Definition listed_urls (l : list (option string)) : list string :=
  flat_map (fun o => match o with Some u => [u] | None => [] end) l.

(** What each child sitemap, requested one after the other from [log] on,
    contributes: its number of [url] elements when it succeeds. *)
Fixpoint contributions (net : network) (t : Z) (urls : list string)
    (log : list request) : list (option Z) :=
  match urls with
  | [] => []
  | u :: rest =>
      option_map count_urls (parsed (net log (GET u t)))
      :: contributions net t rest (log ++ [GET u t])%list
  end.

Definition contribution_value (c : option Z) : Z :=
  match c with Some n => n | None => 0%Z end.

Definition sum_contributions (cs : list (option Z)) : Z :=
  fold_right (fun c acc => (contribution_value c + acc)%Z) 0%Z cs.

Definition has_loc (sitemap : Element) : bool :=
  match find_child sitemap LOC with Some _ => true | None => false end.

(** The child sitemaps an index document has requested: the URLs among the
    first ten entries collected from it. *)
Definition fetched_sitemaps (root : Element) : list string :=
  listed_urls (firstn 10 (individual_sitemaps (findall_descendants root SITEMAP))).

Definition homepage (domain : string) : request := GET ("https://" ++ domain) 5.

(** The outcome of the homepage check, given the answer to its GET and the
    method the loop over the sitemap locations left. *)
Definition after_homepage (answer : pyresult Response) (method : string) : Z * string :=
  match answer with
  | Raise _ => (0%Z, "Domain inaccessible")
  | Ret resp =>
      if (status_code resp =? 200)%Z then (1%Z, "Homepage only (estimate)")
      else (0%Z, method)
  end.

(** The methods [get_page_count] can return. *)
Inductive returned_method : string -> Prop :=
| rm_invalid : returned_method "Invalid domain"
| rm_none : returned_method "No sitemap found"
| rm_single : returned_method "Single sitemap"
| rm_index (n : nat) : returned_method (index_method n)
| rm_homepage : returned_method "Homepage only (estimate)"
| rm_inaccessible : returned_method "Domain inaccessible".

(** The record of a future when the 25-second ceiling plays no part: the
    outcome of its task, handled as on lines 136-152. *)
Definition record_of (future_to_domain : list (Future * option string))
    (f : Future) : DomainResult :=
  handle_result
    (match dict_get future_to_domain f with Ret d => d | Raise _ => None end)
    (fut_outcome f).

(** The outcome of the task submitted [j]-th for the domain [d], handled as
    on lines 136-152 without the ceiling. *)
Definition task_record (world : nat -> task_world) (j : nat) (d : option string)
  : DomainResult :=
  handle_result d (fst (get_page_count (tw_net (world j)) d 20 [])).

(* ================================================================== *)
(** * Servers and documents used in the examples *)
(* ================================================================== *)

(** A server that answers by URL alone, and refuses every URL it does not know. *)
Fixpoint serve (table : list (string * pyresult Response)) (url : string)
  : pyresult Response :=
  match table with
  | [] => Raise (mkExc RequestException "connection refused")
  | (u, r) :: table' => if String.eqb u url then r else serve table' url
  end.

Definition static_server (table : list (string * pyresult Response)) : network :=
  fun _ rq => serve table (req_url rq).

Definition not_found : pyresult Response := Ret (mkResponse 404 Malformed).
Definition ok (root : Element) : pyresult Response := Ret (mkResponse 200 (WellFormed root)).

(** A server on which every page is missing. *)
Definition all_not_found : network := fun _ _ => not_found.

(** [<urlset>] with [n] [<url>] entries. *)
Definition urlset (n : nat) : Element :=
  Elem (NS ++ "urlset") None
       (repeat (Elem URL None [Elem LOC (Some "https://a.com/page") []]) n).

(** [<sitemapindex>] with one [<sitemap><loc>] entry per URL. *)
Definition sitemapindex (locs : list string) : Element :=
  Elem (NS ++ "sitemapindex") None
       (map (fun u => Elem SITEMAP None [Elem LOC (Some u) []]) locs).

(** An index whose only [<sitemap>] entry has no [<loc>]. *)
Definition index_without_loc : Element :=
  Elem (NS ++ "sitemapindex") None [Elem SITEMAP None []].

(** An empty leaf sitemap is served; the homepage answers 404. *)
Definition empty_sitemap_server : network :=
  static_server [ ("https://a.com/sitemap.xml", ok (urlset 0));
                  ("https://a.com", not_found) ].

(** An index with two children: the first is down, the second is an empty
    leaf sitemap.  The homepage answers 404. *)
Definition empty_child_server : network :=
  static_server
    [ ("https://a.com/sitemap.xml",
       ok (sitemapindex ["https://a.com/s1.xml"; "https://a.com/s2.xml"]));
      ("https://a.com/s2.xml", ok (urlset 0));
      ("https://a.com", not_found) ].

Definition index_without_loc_server : network :=
  static_server [ ("https://a.com/sitemap.xml", ok index_without_loc);
                  ("https://a.com", not_found) ].

(** A session whose every GET raises something that is not a
    [RequestException], with a message of 60 characters. *)
Definition faulty_server : network :=
  fun _ _ =>
    Raise (mkExc OtherException
                 "0123456789012345678901234567890123456789012345678901234567890").

Definition faulty_world : nat -> task_world := fun _ => mkTask faulty_server 1.

(** A leaf sitemap of 37 pages at the first location. *)
Definition leaf_37_server : network :=
  static_server [ ("https://a.com/sitemap.xml", ok (urlset 37)) ].

(** An index of three children with 10, 20 and 5 pages. *)
Definition index_35_server : network :=
  static_server
    [ ("https://a.com/sitemap.xml",
       ok (sitemapindex ["https://a.com/s1.xml"; "https://a.com/s2.xml"; "https://a.com/s3.xml"]));
      ("https://a.com/s1.xml", ok (urlset 10));
      ("https://a.com/s2.xml", ok (urlset 20));
      ("https://a.com/s3.xml", ok (urlset 5)) ].

(** An index of three children with 10, 20 and 5 pages; the second is down. *)
Definition three_children_server : network :=
  static_server
    [ ("https://www.a.com/sitemap.xml",
       ok (sitemapindex ["https://a.com/s1.xml"; "https://a.com/s2.xml"; "https://a.com/s3.xml"]));
      ("https://a.com/s1.xml", ok (urlset 10));
      ("https://a.com/s3.xml", ok (urlset 5)) ].

(** An index of twelve children, none of which is served. *)
Definition twelve_locs : list string :=
  map (fun i => "https://a.com/s" ++ Str.of_nat i ++ ".xml") (seq 1 12).

Definition twelve_children_server : network :=
  static_server [ ("https://a.com/sitemap.xml", ok (sitemapindex twelve_locs)) ].

(** The first location serves a document that declares the encoding big5,
    the second a leaf sitemap of four pages. *)
Definition big5_server : network :=
  static_server
    [ ("https://a.com/sitemap.xml", Ret (mkResponse 200 MultiByteEncoding));
      ("https://www.a.com/sitemap.xml", ok (urlset 4)) ].

(** A leaf sitemap of five pages at the first location. *)
Definition leaf_server : network :=
  static_server [ ("https://a.com/sitemap.xml", ok (urlset 5)) ].

(** A batch of one task that takes 30 seconds to count five pages. *)
Definition slow_world : nat -> task_world := fun _ => mkTask leaf_server 30.

(** A batch whose first task is done after 2 seconds and whose other tasks
    are still running after 400. *)
Definition stuck_world : nat -> task_world :=
  fun i => match i with
           | O => mkTask leaf_server 2
           | S _ => mkTask all_not_found 400
           end.

(** A batch in which every page of every domain is missing. *)
Definition missing_world : nat -> task_world := fun _ => mkTask all_not_found 1.

(** The text of section 8's end-to-end example: three lines, two domains. *)
Definition example_input : string :=
  "https://a.com" ++ String "010" ("a.com" ++ String "010" "http://b.org").

(** Only the homepage answers. *)
Definition homepage_server : network :=
  static_server [ ("https://a.com", Ret (mkResponse 200 Malformed)) ].

(* ================================================================== *)
(** * The rest of the program: the caller's lines, the loop, the metrics *)
(* ================================================================== *)

(** Lines 178 and 188:
    [[line.strip() for line in url_input.split('\n') if line.strip()]]. *)
Definition input_lines (url_input : string) : list string :=
  map Str.strip
      (List.filter (fun line => truthy (Some (Str.strip line)))
                   (Str.split "010" url_input)).

(** The loop of lines 132-156 as [process_domains_batch] runs it: over the
    futures [as_completed] yields before its deadline, from the initial
    state.  Its final state holds the calls of [progress_callback]. *)
Definition batch_loop (world : nat -> task_world)
    (domains : list (option string)) (progress_callback : bool)
  : pyresult loop_state :=
  let future_to_domain := submit_all world 0 domains in
  completion_loop future_to_domain (Z.of_nat (length domains)) progress_callback
                  (fst (as_completed (map fst future_to_domain) 300))
                  (mkLoop 0 [] 0 []).

(** Line 225: [successful = len(df[df['Pages'] > 0])]. *)
Definition successful (results : list DomainResult) : nat :=
  length (List.filter (fun r => (0 <? Pages r)%Z) results).

(** Line 288: [failed_domains = df[df['Pages'] == 0]]. *)
Definition failed_domains (results : list DomainResult) : list DomainResult :=
  List.filter (fun r => (Pages r =? 0)%Z) results.

(** A text without [/], [?] and [#]. *)
Definition no_delimiter (s : string) : bool :=
  Str.forallb (fun c => negb (Url.is_delim c)) s.

(** The first three locations are refused, the fourth serves an index of
    twelve children, none of which is served; the homepage answers 404. *)
Definition worst_case_server : network :=
  static_server [ ("https://www.a.com/sitemap_index.xml", ok (sitemapindex twelve_locs));
                  ("https://a.com", not_found) ].

(** A batch of three tasks done after 3, 1 and 2 seconds. *)
Definition shuffled_world : nat -> task_world :=
  fun i => match i with
           | 0 => mkTask leaf_server 3
           | 1 => mkTask all_not_found 1
           | _ => mkTask faulty_server 2
           end.

(* ================================================================== *)
(** * [clean_domain]: properties *)
(* ================================================================== *)

Ltac destruct_host :=
  match goal with
  | |- context [if ?b then Url.netloc ?u else Ret ?v] =>
      destruct (if b then Url.netloc u else Ret v) as [host|e]
  end.

Section CleanDomain.

Lemma rstrip_with_idem p s :
  Str.rstrip_with p (Str.rstrip_with p s) = Str.rstrip_with p s.
Proof.
  induction s as [|c s IH]; simpl; [reflexivity|].
  destruct (p c && Str.is_empty (Str.rstrip_with p s)) eqn:E; simpl.
  - reflexivity.
  - rewrite IH, E. reflexivity.
Qed.

Lemma lower_char_idem c : Str.lower_char (Str.lower_char c) = Str.lower_char c.
Proof. destruct c as [[] [] [] [] [] [] [] []]; vm_compute; reflexivity. Qed.

Lemma lower_idem s : Str.lower (Str.lower s) = Str.lower s.
Proof.
  induction s as [|c s IH]; simpl; [reflexivity|].
  now rewrite lower_char_idem, IH.
Qed.

Lemma lower_drop n : forall s, Str.lower s = s -> Str.lower (Str.drop n s) = Str.drop n s.
Proof.
  induction n as [|n IH]; intros [|c s] H; simpl; try reflexivity; try assumption.
  apply IH. simpl in H. now injection H.
Qed.

Lemma lower_rstrip p s :
  Str.lower s = s -> Str.lower (Str.rstrip_with p s) = Str.rstrip_with p s.
Proof.
  induction s as [|c s IH]; simpl; [reflexivity|].
  intros H. injection H as Hc Hs.
  destruct (p c && Str.is_empty (Str.rstrip_with p s)); simpl; [reflexivity|].
  now rewrite Hc, IH.
Qed.

Lemma lower_sub_leading_www s :
  Str.lower s = s -> Str.lower (sub_leading_www s) = sub_leading_www s.
Proof.
  intros H. unfold sub_leading_www.
  destruct (Str.startswith s "www."); [now apply lower_drop | exact H].
Qed.

(** The value [clean_domain] computes from the host text. *)
Lemma cleaned_shape host :
  let d := Str.rstrip_slash (sub_leading_www (Str.lower host)) in
  Str.rstrip_slash d = d /\ Str.lower d = d.
Proof.
  split.
  - apply rstrip_with_idem.
  - apply lower_rstrip, lower_sub_leading_www, lower_idem.
Qed.

(** [clean_domain] on a text, with the test of line 22 folded into the one
    of line 38. *)
Lemma clean_domain_trimmed s :
  clean_domain (Some s)
  = match (if Str.startswith (Str.strip s) "http://"
              || Str.startswith (Str.strip s) "https://"
           then Url.netloc (Str.strip s) else Ret (Str.strip s)) with
    | Raise e => Raise e
    | Ret host =>
        if Str.is_empty (Str.rstrip_slash (sub_leading_www (Str.lower host)))
        then Ret None
        else Ret (Some (Str.rstrip_slash (sub_leading_www (Str.lower host))))
    end.
Proof.
  destruct s as [|c s]; [reflexivity|].
  unfold clean_domain.
  cbn [truthy negb].
  destruct_host; [|reflexivity].
  destruct (Str.rstrip_slash _); reflexivity.
Qed.

End CleanDomain.

(* ================================================================== *)
(** * [get_page_count]: the loops *)
(* ================================================================== *)

Section GetPageCount.

Variable net : network.
Variable t : Z.

Lemma count_individual_sitemaps_log l : forall tp log,
  snd (count_individual_sitemaps net t l tp log)
  = (log ++ map (get_req t) (listed_urls l))%list.
Proof.
  induction l as [|[u|] l IH]; intros tp log; simpl.
  - now rewrite app_nil_r.
  - destruct (net log (GET u t)) as [resp|e];
      [destruct (status_code resp =? 200)%Z; [destruct (content resp); simpl|]|];
      rewrite IH, <- app_assoc; reflexivity.
  - apply IH.
Qed.

Lemma count_individual_sitemaps_total l : forall tp log,
  fst (count_individual_sitemaps net t l tp log)
  = (tp + sum_contributions (contributions net t (listed_urls l) log))%Z.
Proof.
  induction l as [|[u|] l IH]; intros tp log; simpl.
  - lia.
  - unfold parsed.
    destruct (net log (GET u t)) as [resp|e];
      [destruct (status_code resp =? 200)%Z; [destruct (content resp); simpl|]|];
      rewrite IH; simpl; lia.
  - apply IH.
Qed.

Lemma count_urls_nonneg root : (0 <= count_urls root)%Z.
Proof. unfold count_urls. lia. Qed.

Lemma sum_contributions_nonneg urls : forall log,
  (0 <= sum_contributions (contributions net t urls log))%Z.
Proof.
  induction urls as [|u urls IH]; intros log; simpl; [lia|].
  specialize (IH (log ++ [GET u t])%list).
  destruct (parsed (net log (GET u t))) as [root|]; simpl; [|lia].
  pose proof (count_urls_nonneg root). lia.
Qed.

Lemma sum_contributions_zero urls : forall log,
  sum_contributions (contributions net t urls log) = 0%Z
  <-> Forall (fun c => c = None \/ c = Some 0%Z) (contributions net t urls log).
Proof.
  induction urls as [|u urls IH]; intros log; simpl.
  - split; [constructor | reflexivity].
  - specialize (IH (log ++ [GET u t])%list).
    pose proof (sum_contributions_nonneg urls (log ++ [GET u t])%list) as Hnn.
    destruct (parsed (net log (GET u t))) as [root|]; simpl.
    + pose proof (count_urls_nonneg root) as Hc. split.
      * intros H. constructor; [right; f_equal; lia | apply IH; lia].
      * intros H. inversion H as [|? ? [Hx|Hx] Hr]; subst; [discriminate|].
        injection Hx as Hx. apply IH in Hr. lia.
    + split.
      * intros H. constructor; [now left | apply IH; lia].
      * intros H. inversion H; subst. apply IH. assumption.
Qed.

(** Candidates that are passed over leave the loop variables as they were. *)
Lemma try_sitemap_urls_skip us : forall rest tp m log,
  all_skipped net t us log = true ->
  try_sitemap_urls net t (us ++ rest) tp m log
  = try_sitemap_urls net t rest tp m (log ++ map (get_req t) us)%list.
Proof.
  induction us as [|u us IH]; intros rest tp m log H; simpl in *.
  - now rewrite app_nil_r.
  - apply andb_true_iff in H as [Hs Hr].
    unfold skipped in Hs.
    destruct (net log (GET u t)) as [resp|e].
    + destruct (status_code resp =? 200)%Z; simpl in Hs.
      * destruct (fromstring (content resp)) as [root|e]; [discriminate|].
        rewrite Hs, IH by assumption. now rewrite <- app_assoc.
      * rewrite IH by assumption. now rewrite <- app_assoc.
    + rewrite Hs, IH by assumption. now rewrite <- app_assoc.
Qed.

(** The candidate that answers 200 with a well-formed body ends the loop. *)
Lemma try_sitemap_urls_win u rest tp m log root :
  parsed (net log (GET u t)) = Some root ->
  try_sitemap_urls net t (u :: rest) tp m log
  = match findall_descendants root SITEMAP with
    | [] => (Ret (count_urls root, "Single sitemap"), (log ++ [GET u t])%list)
    | _ :: _ =>
        let sitemaps := individual_sitemaps (findall_descendants root SITEMAP) in
        let r := count_individual_sitemaps net t (firstn 10 sitemaps) tp
                                           (log ++ [GET u t])%list in
        (Ret (fst r, index_method (length sitemaps)), snd r)
    end.
Proof.
  unfold parsed. intros H. simpl.
  destruct (net log (GET u t)) as [resp|e]; [|discriminate].
  destruct (status_code resp =? 200)%Z; [|discriminate].
  destruct (fromstring (content resp)) as [root'|e]; [|discriminate].
  injection H as ->.
  destruct (findall_descendants root SITEMAP); [reflexivity|].
  destruct (count_individual_sitemaps _ _ _ _ _). reflexivity.
Qed.

Lemma individual_sitemaps_length l :
  length (individual_sitemaps l) = length (List.filter has_loc l).
Proof.
  induction l as [|e l IH]; simpl; [reflexivity|].
  unfold has_loc. destruct (find_child e LOC); simpl; now rewrite IH.
Qed.

(** The names the loop can leave in [method]. *)
Lemma try_sitemap_urls_method urls : forall tp m log r log',
  try_sitemap_urls net t urls tp m log = (Ret r, log') ->
  snd r = m \/ snd r = "Single sitemap" \/ exists n, snd r = index_method n.
Proof.
  induction urls as [|u urls IH]; intros tp m log r log' H; simpl in H.
  - injection H as <- _. now left.
  - destruct (net log (GET u t)) as [resp|e].
    + destruct (status_code resp =? 200)%Z; [|eauto].
      destruct (fromstring (content resp)) as [root|e];
        [|destruct (_ || _); [eauto | discriminate]].
      destruct (findall_descendants root SITEMAP).
      * injection H as <- _. right; now left.
      * destruct (count_individual_sitemaps _ _ _ _ _).
        injection H as <- _. right; right; eexists; reflexivity.
    + destruct (caught_line_105 e); [eauto | discriminate].
Qed.

(** Nor does the loop ever leave a negative count. *)
Lemma try_sitemap_urls_nonneg urls : forall tp m log r log',
  (0 <= tp)%Z ->
  try_sitemap_urls net t urls tp m log = (Ret r, log') -> (0 <= fst r)%Z.
Proof.
  induction urls as [|u urls IH]; intros tp m log r log' Htp H; simpl in H.
  - injection H as <- _. assumption.
  - destruct (net log (GET u t)) as [resp|e].
    + destruct (status_code resp =? 200)%Z; [|eauto].
      destruct (fromstring (content resp)) as [root|e];
        [|destruct (_ || _); [eauto | discriminate]].
      destruct (findall_descendants root SITEMAP).
      * injection H as <- _. apply count_urls_nonneg.
      * match type of H with
        | context [count_individual_sitemaps net t ?l tp ?lg] =>
            pose proof (count_individual_sitemaps_total l tp lg) as Ht;
            pose proof (sum_contributions_nonneg (listed_urls l) lg) as Hnn;
            destruct (count_individual_sitemaps net t l tp lg) as [tot lg']
        end.
        injection H as <- _. cbn [fst] in *. lia.
    + destruct (caught_line_105 e); [eauto | discriminate].
Qed.

(** What escapes the loop is never a [TimeoutError]. *)
Lemma try_sitemap_urls_raise urls : forall tp m log e log',
  try_sitemap_urls net t urls tp m log = (Raise e, log') ->
  exc_class_eqb (exc_type e) TimeoutError = false.
Proof.
  induction urls as [|u urls IH]; intros tp m log e log' H; simpl in H.
  - discriminate.
  - destruct (net log (GET u t)) as [resp|e0].
    + destruct (status_code resp =? 200)%Z; [|eauto].
      destruct (fromstring (content resp)) as [root|e1].
      * destruct (findall_descendants root SITEMAP); [discriminate|].
        destruct (count_individual_sitemaps _ _ _ _ _). discriminate.
      * destruct (caught_line_102 e1 || caught_line_105 e1) eqn:Hc; [eauto|].
        injection H as -> _. apply orb_false_iff in Hc as [_ Hc].
        unfold caught_line_105 in Hc. now apply orb_false_iff in Hc.
    + destruct (caught_line_105 e0) eqn:Hc; [eauto|].
      injection H as -> _. unfold caught_line_105 in Hc.
      now apply orb_false_iff in Hc.
Qed.

End GetPageCount.

(* ================================================================== *)
(** * [get_page_count]: the sitemap locations *)
(* ================================================================== *)

Lemma skipn_nth_error {A} (l : list A) : forall k,
  skipn k l = match nth_error l k with
              | Some x => x :: skipn (S k) l
              | None => []
              end.
Proof.
  induction l as [|a l IH]; intros [|k]; simpl; try reflexivity.
  rewrite IH. destruct (nth_error l k); reflexivity.
Qed.

Lemma string_length_append a b :
  String.length (a ++ b) = String.length a + String.length b.
Proof. induction a as [|c a IH]; simpl; [reflexivity | now rewrite IH]. Qed.

Lemma sitemap_urls_NoDup domain : NoDup (sitemap_urls domain).
Proof.
  assert (Hlen : forall a b : string, String.length a <> String.length b -> a <> b)
    by (intros a b H ->; now apply H).
  assert (Hne : forall a b : string,
             String.length a <> String.length b -> a = b -> False)
    by (intros a b H E; exact (Hlen a b H E)).
  unfold sitemap_urls.
  repeat (apply NoDup_cons;
          [ cbn [In]; intros H;
            repeat (destruct H as [H|H];
                    [ revert H; apply Hne; rewrite !string_length_append; simpl; lia |]);
            exact H
          | ]).
  apply NoDup_nil.
Qed.

Section SitemapLocations.

Variable net : network.
Variable t : Z.

(** The loop, once the first [k] locations have been passed over and the
    next one answers 200 with a well-formed document. *)
Lemma try_sitemap_urls_at urls k u root tp m log :
  all_skipped net t (firstn k urls) log = true ->
  nth_error urls k = Some u ->
  parsed (net (log ++ map (get_req t) (firstn k urls))%list (GET u t)) = Some root ->
  let log_u := ((log ++ map (get_req t) (firstn k urls)) ++ [GET u t])%list in
  try_sitemap_urls net t urls tp m log
  = match findall_descendants root SITEMAP with
    | [] => (Ret (count_urls root, "Single sitemap"), log_u)
    | _ :: _ =>
        (Ret ((tp + sum_contributions
                      (contributions net t (fetched_sitemaps root) log_u))%Z,
              index_method
                (length (List.filter has_loc (findall_descendants root SITEMAP)))),
         (log_u ++ map (get_req t) (fetched_sitemaps root))%list)
    end.
Proof.
  intros Hskip Hnth Hparsed log_u.
  rewrite <- (firstn_skipn k urls) at 1.
  rewrite try_sitemap_urls_skip by assumption.
  rewrite skipn_nth_error, Hnth.
  rewrite (try_sitemap_urls_win _ _ _ _ _ _ _ root) by assumption.
  subst log_u.
  destruct (findall_descendants root SITEMAP) as [|e l] eqn:E; [reflexivity|].
  cbv zeta. unfold fetched_sitemaps. rewrite <- E.
  rewrite count_individual_sitemaps_log, count_individual_sitemaps_total.
  now rewrite individual_sitemaps_length.
Qed.

(** The loop, once the first [k] locations have been passed over and the
    next one answers 200 with a body on which the parser raises something
    other than [ParseError]. *)
Lemma try_sitemap_urls_fault urls k u e tp m log :
  all_skipped net t (firstn k urls) log = true ->
  nth_error urls k = Some u ->
  parser_fault (net (log ++ map (get_req t) (firstn k urls))%list (GET u t)) = Some e ->
  caught_line_102 e = false ->
  try_sitemap_urls net t urls tp m log
  = (Raise e, ((log ++ map (get_req t) (firstn k urls)) ++ [GET u t])%list).
Proof.
  intros Hskip Hnth Hf Hc.
  rewrite <- (firstn_skipn k urls) at 1.
  rewrite try_sitemap_urls_skip by assumption.
  rewrite skipn_nth_error, Hnth.
  cbn [try_sitemap_urls session_get].
  unfold parser_fault in Hf.
  destruct (net _ (GET u t)) as [resp|e0]; [|discriminate].
  destruct (status_code resp =? 200)%Z; [|discriminate].
  destruct (content resp); simpl in Hf; try discriminate;
    injection Hf as <-; try discriminate Hc; reflexivity.
Qed.

(** The parser raises one of three classes. *)
Lemma parser_fault_class r e :
  parser_fault r = Some e ->
  exc_type e = ParseError \/ exc_type e = ValueError \/ exc_type e = LookupError.
Proof.
  unfold parser_fault. destruct r as [resp|e0]; [|discriminate].
  destruct (status_code resp =? 200)%Z; [|discriminate].
  destruct (content resp); simpl; intros H; try discriminate;
    injection H as <-; simpl; auto.
Qed.

(** The loop, once every location has been passed over. *)
Lemma try_sitemap_urls_none urls tp m log :
  all_skipped net t urls log = true ->
  try_sitemap_urls net t urls tp m log
  = (Ret (tp, m), (log ++ map (get_req t) urls)%list).
Proof.
  intros H. rewrite <- (app_nil_r urls) at 1.
  now rewrite try_sitemap_urls_skip.
Qed.

End SitemapLocations.

(** The four locations are the documented ones, in the documented order,
    and no two of them coincide.  When the first [k] of them are passed over
    (the request fails or times out, the status is not 200, or the body is
    not well-formed), each has been requested exactly once, in order.  When
    that leaves none, the count is 0.  When the next location answers 200
    with a well-formed document, the outcome of the loop is the outcome of
    trying that location alone, and the requests issued are the [k + 1]
    locations followed only by the child sitemaps of that document: no
    later location is tried. *)
Lemma locations_tried_in_order
    (net : network) (domain : string) (t : Z) (log : list request) (k : nat) :
  let urls := sitemap_urls domain in
  let log_k := (log ++ map (get_req t) (firstn k urls))%list in
  all_skipped net t (firstn k urls) log = true ->
  urls = [ "https://" ++ domain ++ "/sitemap.xml";
           "https://www." ++ domain ++ "/sitemap.xml";
           "https://" ++ domain ++ "/sitemap_index.xml";
           "https://www." ++ domain ++ "/sitemap_index.xml" ]
  /\ NoDup urls
  /\ match nth_error urls k with
     | None =>
         try_sitemap_urls net t urls 0 "No sitemap found" log
         = (Ret (0%Z, "No sitemap found"), (log ++ map (get_req t) urls)%list)
     | Some u =>
         match parsed (net log_k (GET u t)) with
         | None => True
         | Some root =>
             try_sitemap_urls net t urls 0 "No sitemap found" log
             = try_sitemap_urls net t [u] 0 "No sitemap found" log_k
             /\ snd (try_sitemap_urls net t urls 0 "No sitemap found" log)
                = (log_k ++ GET u t :: map (get_req t) (fetched_sitemaps root))%list
             /\ exists r, fst (try_sitemap_urls net t urls 0 "No sitemap found" log) = Ret r
         end
     end.
Proof.
  intros urls log_k Hskip. split; [reflexivity|]. split; [apply sitemap_urls_NoDup|].
  destruct (nth_error urls k) as [u|] eqn:Hnth.
  - destruct (parsed (net log_k (GET u t))) as [root|] eqn:Hp; [|exact I].
    pose proof (try_sitemap_urls_at net t urls k u root 0%Z "No sitemap found" log
                  Hskip Hnth Hp) as H1.
    assert (Hp' : parsed (net (log_k ++ map (get_req t) (firstn 0 [u]))%list (GET u t))
                  = Some root) by (simpl; now rewrite app_nil_r).
    pose proof (try_sitemap_urls_at net t [u] 0 u root 0%Z "No sitemap found" log_k
                  eq_refl eq_refl Hp') as H2.
    cbn [firstn map] in H2. rewrite app_nil_r in H2.
    cbv zeta in H1, H2. fold urls log_k in H1. rewrite H1, H2.
    split; [reflexivity|].
    destruct (findall_descendants root SITEMAP) as [|e l] eqn:E; cbn [fst snd].
    + unfold fetched_sitemaps. rewrite E. simpl. eauto.
    + rewrite <- app_assoc. simpl. eauto.
  - apply nth_error_None in Hnth.
    rewrite firstn_all2 in Hskip by assumption.
    now apply try_sitemap_urls_none.
Qed.

(** The same on a server whose first location refuses the connection and
    whose second serves an index. *)
Example locations_tried_in_order_example :
  all_skipped three_children_server 20 (firstn 1 (sitemap_urls "a.com")) [] = true
  /\ snd (try_sitemap_urls three_children_server 20 (sitemap_urls "a.com")
                           0 "No sitemap found" [])
     = [ GET "https://a.com/sitemap.xml" 20; GET "https://www.a.com/sitemap.xml" 20;
         GET "https://a.com/s1.xml" 20; GET "https://a.com/s2.xml" 20;
         GET "https://a.com/s3.xml" 20 ].
Proof.
  split; [reflexivity|].
  exact (proj1 (proj2 (proj2 (proj2
           (locations_tried_in_order three_children_server "a.com" 20 [] 1
              eq_refl))))).
Qed.

(* ================================================================== *)
(** * [get_page_count]: index documents *)
(* ================================================================== *)

Lemma listed_urls_length l : length (listed_urls l) <= length l.
Proof.
  induction l as [|[u|] l IH]; simpl; lia.
Qed.

Lemma fetched_sitemaps_length root : length (fetched_sitemaps root) <= 10.
Proof.
  unfold fetched_sitemaps.
  etransitivity; [apply listed_urls_length|]. apply firstn_le_length.
Qed.

Lemma filter_length_all {A} (p : A -> bool) (l : list A) :
  if forallb p l then length (List.filter p l) = length l
  else length (List.filter p l) < length l.
Proof.
  induction l as [|a l IH]; simpl; [reflexivity|].
  pose proof (filter_length_le p l) as Hle.
  destruct (p a); simpl.
  - destruct (forallb p l); lia.
  - lia.
Qed.

(** C6 (amended). When the document that ends the loop is an index, the
    requests that follow are those for the URLs among its first ten child
    entries, in order, once each, and no others: at most ten.  The count
    returned is the sum, over these children, of the number of [url] elements
    of each child that answers 200 with a well-formed body; a child that
    fails adds nothing and raises nothing.  The count is never negative, and
    it is 0 exactly when every child failed or held no [url] element. *)
Theorem C6_index_expansion
    (net : network) (domain : string) (t : Z) (log : list request)
    (k : nat) (u : string) (root : Element) :
  let urls := sitemap_urls domain in
  let log_u := ((log ++ map (get_req t) (firstn k urls)) ++ [GET u t])%list in
  let cs := contributions net t (fetched_sitemaps root) log_u in
  all_skipped net t (firstn k urls) log = true ->
  nth_error urls k = Some u ->
  parsed (net (log ++ map (get_req t) (firstn k urls))%list (GET u t)) = Some root ->
  findall_descendants root SITEMAP <> [] ->
  try_sitemap_urls net t urls 0 "No sitemap found" log
  = (Ret (sum_contributions cs,
          index_method (length (individual_sitemaps (findall_descendants root SITEMAP)))),
     (log_u ++ map (get_req t) (fetched_sitemaps root))%list)
  /\ length (fetched_sitemaps root) <= 10
  /\ (0 <= sum_contributions cs)%Z
  /\ (sum_contributions cs = 0%Z
      <-> Forall (fun c => c = None \/ c = Some 0%Z) cs).
Proof.
  intros urls log_u cs Hskip Hnth Hp Hidx.
  pose proof (try_sitemap_urls_at net t urls k u root 0%Z "No sitemap found" log
                Hskip Hnth Hp) as H.
  cbv zeta in H. fold log_u in H.
  destruct (findall_descendants root SITEMAP) as [|e l] eqn:E; [contradiction|].
  rewrite H, individual_sitemaps_length. fold cs.
  repeat split.
  - apply fetched_sitemaps_length.
  - apply sum_contributions_nonneg.
  - apply sum_contributions_zero.
  - apply sum_contributions_zero.
Qed.

(** C6, on the index of three children of 10, 20 and 5 pages whose second
    child is down: the count is 15. *)
Lemma C6_index_expansion_witness :
  all_skipped three_children_server 20 (firstn 1 (sitemap_urls "a.com")) [] = true
  /\ fst (try_sitemap_urls three_children_server 20 (sitemap_urls "a.com")
                           0 "No sitemap found" [])
     = Ret (15%Z, "Sitemap index (3 sitemaps)").
Proof.
  split; [reflexivity|].
  refine (f_equal fst (proj1
    (C6_index_expansion three_children_server "a.com" 20 [] 1
       "https://www.a.com/sitemap.xml"
       (sitemapindex ["https://a.com/s1.xml"; "https://a.com/s2.xml"; "https://a.com/s3.xml"])
       eq_refl eq_refl eq_refl _))).
  discriminate.
Defined.

(** C6 as stated fails: of the two children of an index the first is down
    and the second is fetched and parsed and holds no [url] element; the
    count is 0 although a child succeeded. *)
Lemma C6_zero_with_successful_child :
  parsed (empty_child_server [] (GET "https://a.com/sitemap.xml" 20))
  = Some (sitemapindex ["https://a.com/s1.xml"; "https://a.com/s2.xml"])
  /\ fetched_sitemaps (sitemapindex ["https://a.com/s1.xml"; "https://a.com/s2.xml"])
     = ["https://a.com/s1.xml"; "https://a.com/s2.xml"]
  /\ parsed (empty_child_server
               [GET "https://a.com/sitemap.xml" 20; GET "https://a.com/s1.xml" 20]
               (GET "https://a.com/s2.xml" 20))
     = Some (urlset 0)
  /\ try_sitemap_urls empty_child_server 20 (sitemap_urls "a.com") 0 "No sitemap found" []
     = (Ret (0%Z, "Sitemap index (2 sitemaps)"),
        [GET "https://a.com/sitemap.xml" 20; GET "https://a.com/s1.xml" 20;
         GET "https://a.com/s2.xml" 20])
  /\ fst (get_page_count empty_child_server (Some "a.com") 20 [])
     = Ret (0%Z, "Sitemap index (2 sitemaps)").
Proof. repeat split. Qed.

(** Of twelve children only the first ten are requested, and the method
    still names all twelve. *)
Example index_of_twelve :
  try_sitemap_urls twelve_children_server 20 (sitemap_urls "a.com") 0 "No sitemap found" []
  = (Ret (0%Z, "Sitemap index (12 sitemaps)"),
     GET "https://a.com/sitemap.xml" 20 :: map (get_req 20) (firstn 10 twelve_locs)).
Proof. reflexivity. Qed.

(** C7 (amended). A document that ends the loop is treated as an index when
    it holds at least one [sitemap] element, and the method is then
    "Sitemap index (N sitemaps)" with N the number of those [sitemap]
    elements that have a [loc] child: whatever the children answer, and
    without the bound of ten.  N is the number of [sitemap] elements exactly
    when each of them has a [loc] child, and is smaller otherwise.  A
    document without [sitemap] elements is a leaf: the count is its number of
    [url] elements and the method is "Single sitemap". *)
Theorem C7_method_of_document
    (net : network) (domain : string) (t : Z) (log : list request)
    (k : nat) (u : string) (root : Element) :
  let urls := sitemap_urls domain in
  let sitemap_elements := findall_descendants root SITEMAP in
  let N := length (List.filter has_loc sitemap_elements) in
  all_skipped net t (firstn k urls) log = true ->
  nth_error urls k = Some u ->
  parsed (net (log ++ map (get_req t) (firstn k urls))%list (GET u t)) = Some root ->
  match sitemap_elements with
  | [] =>
      fst (try_sitemap_urls net t urls 0 "No sitemap found" log)
      = Ret (count_urls root, "Single sitemap")
  | _ :: _ =>
      exists total,
        fst (try_sitemap_urls net t urls 0 "No sitemap found" log)
        = Ret (total, index_method N)
  end
  /\ N = length (individual_sitemaps sitemap_elements)
  /\ (if forallb has_loc sitemap_elements
      then N = length sitemap_elements else N < length sitemap_elements).
Proof.
  intros urls sitemap_elements N Hskip Hnth Hp.
  pose proof (try_sitemap_urls_at net t urls k u root 0%Z "No sitemap found" log
                Hskip Hnth Hp) as H.
  cbv zeta in H. fold sitemap_elements in H. fold N in H.
  split; [|split].
  - rewrite H. destruct sitemap_elements; cbn [fst]; eauto.
  - subst N. now rewrite individual_sitemaps_length.
  - apply filter_length_all.
Qed.

(** C7, on the index of three children one of which is down: the method
    names three sitemaps. *)
Lemma C7_method_of_document_witness :
  all_skipped three_children_server 20 (firstn 1 (sitemap_urls "a.com")) [] = true
  /\ exists total,
       fst (try_sitemap_urls three_children_server 20 (sitemap_urls "a.com")
                             0 "No sitemap found" [])
       = Ret (total, "Sitemap index (3 sitemaps)").
Proof.
  split; [reflexivity|].
  exact (proj1
    (C7_method_of_document three_children_server "a.com" 20 [] 1
       "https://www.a.com/sitemap.xml"
       (sitemapindex ["https://a.com/s1.xml"; "https://a.com/s2.xml"; "https://a.com/s3.xml"])
       eq_refl eq_refl eq_refl)).
Defined.

(** C7 as stated fails: a document with one [sitemap] entry that has no
    [loc] is treated as an index, and the method names 0 sitemaps: neither
    the number of entries found in the document nor "Single sitemap". *)
Lemma C7_index_entry_without_loc :
  parsed (index_without_loc_server [] (GET "https://a.com/sitemap.xml" 20))
  = Some index_without_loc
  /\ length (findall_descendants index_without_loc SITEMAP) = 1
  /\ fst (try_sitemap_urls index_without_loc_server 20 (sitemap_urls "a.com")
                           0 "No sitemap found" [])
     = Ret (0%Z, "Sitemap index (0 sitemaps)")
  /\ fst (get_page_count index_without_loc_server (Some "a.com") 20 [])
     = Ret (0%Z, "Sitemap index (0 sitemaps)")
  /\ "Sitemap index (0 sitemaps)" <> index_method 1
  /\ "Sitemap index (0 sitemaps)" <> "Single sitemap".
Proof. repeat split; discriminate. Qed.

(** Section 8: a leaf sitemap with 37 entries at the first location gives
    37 and "Single sitemap", and nothing else is requested; an index of three
    children with 10, 20 and 5 entries gives 35. *)
Example resolver_leaf_37 :
  get_page_count leaf_37_server (Some "a.com") 20 []
  = (Ret (37%Z, "Single sitemap"), [GET "https://a.com/sitemap.xml" 20]).
Proof. reflexivity. Qed.

Example resolver_index_35 :
  fst (get_page_count index_35_server (Some "a.com") 20 [])
  = Ret (35%Z, "Sitemap index (3 sitemaps)").
Proof. reflexivity. Qed.

(* ================================================================== *)
(** * [get_page_count]: the homepage check and the result *)
(* ================================================================== *)

Lemma not_documented_no_sitemap : ~ documented_method "No sitemap found".
Proof.
  intros H. inversion H as [ | n Hn | | | | msg Hm ]; discriminate.
Qed.

Lemma not_documented_invalid : ~ documented_method "Invalid domain".
Proof.
  intros H. inversion H as [ | n Hn | | | | msg Hm ]; discriminate.
Qed.

Lemma homepage_check_eq net domain total method log :
  homepage_check net domain total method log
  = if (total =? 0)%Z
    then (after_homepage (net log (homepage domain)) method,
          (log ++ [homepage domain])%list)
    else ((total, method), log).
Proof.
  unfold homepage_check, after_homepage, homepage, session_get.
  destruct (total =? 0)%Z eqn:E; [|reflexivity].
  apply Z.eqb_eq in E. subst total.
  destruct (net log _) as [resp|e]; [|reflexivity].
  destruct (status_code resp =? 200)%Z; reflexivity.
Qed.

Lemma get_page_count_eq net c domain t log :
  get_page_count net (Some (String c domain)) t log
  = match try_sitemap_urls net t (sitemap_urls (String c domain))
                           0 "No sitemap found" log with
    | (Raise e, log1) => (Raise e, log1)
    | (Ret (total, method), log1) =>
        (Ret (fst (homepage_check net (String c domain) total method log1)),
         snd (homepage_check net (String c domain) total method log1))
    end.
Proof.
  unfold get_page_count.
  destruct (try_sitemap_urls _ _ _ _ _ _) as [[[total method]|e] log1]; [|reflexivity].
  destruct (homepage_check _ _ _ _ _). reflexivity.
Qed.

(** C3 (amended). When the loop over the sitemap locations leaves a count of
    0, one GET of the homepage follows, with a timeout of 5 seconds: status
    200 gives 1 and "Homepage only (estimate)"; an exception gives 0 and
    "Domain inaccessible"; any other status gives 0 and leaves the method as
    the loop left it, which is "No sitemap found", "Single sitemap" or
    "Sitemap index (N sitemaps)".  When the count is not 0 the homepage is
    not requested and the result is that of the loop. *)
Theorem C3_homepage_check_outcomes
    (net : network) (domain : string) (t : Z) (log log1 : list request)
    (total : Z) (method : string) :
  domain <> "" ->
  try_sitemap_urls net t (sitemap_urls domain) 0 "No sitemap found" log
  = (Ret (total, method), log1) ->
  get_page_count net (Some domain) t log
  = (if (total =? 0)%Z
     then (Ret (match net log1 (GET ("https://" ++ domain) 5) with
                | Raise _ => (0%Z, "Domain inaccessible")
                | Ret response =>
                    if (status_code response =? 200)%Z
                    then (1%Z, "Homepage only (estimate)")
                    else (0%Z, method)
                end),
           (log1 ++ [GET ("https://" ++ domain) 5])%list)
     else (Ret (total, method), log1))
  /\ (method = "No sitemap found" \/ method = "Single sitemap"
      \/ exists n, method = index_method n).
Proof.
  intros Hd Hloop. split.
  - destruct domain as [|c domain]; [contradiction|].
    rewrite get_page_count_eq, Hloop, homepage_check_eq.
    destruct (total =? 0)%Z; reflexivity.
  - apply (try_sitemap_urls_method net t _ _ _ _ _ _ Hloop).
Qed.

(** C3, where no sitemap is served and the homepage answers 200. *)
Lemma C3_homepage_check_outcomes_witness :
  "a.com" <> ""
  /\ fst (get_page_count homepage_server (Some "a.com") 20 [])
     = Ret (1%Z, "Homepage only (estimate)").
Proof.
  split; [discriminate|].
  refine (f_equal fst (proj1
    (C3_homepage_check_outcomes homepage_server "a.com" 20 []
       (map (get_req 20) (sitemap_urls "a.com")) 0 "No sitemap found" _ eq_refl))).
  discriminate.
Defined.

(** C3 as stated fails: where every page, the homepage included, answers
    404, the loop leaves 0, the homepage is requested, and the result is
    neither of the two documented outcomes. *)
Lemma C3_homepage_not_found :
  fst (try_sitemap_urls all_not_found 20 (sitemap_urls "a.com") 0 "No sitemap found" [])
  = Ret (0%Z, "No sitemap found")
  /\ In (GET "https://a.com" 5) (snd (get_page_count all_not_found (Some "a.com") 20 []))
  /\ fst (get_page_count all_not_found (Some "a.com") 20 [])
     = Ret (0%Z, "No sitemap found")
  /\ fst (get_page_count all_not_found (Some "a.com") 20 [])
     <> Ret (1%Z, "Homepage only (estimate)")
  /\ fst (get_page_count all_not_found (Some "a.com") 20 [])
     <> Ret (0%Z, "Domain inaccessible").
Proof.
  repeat split; try discriminate.
  simpl. tauto.
Qed.

(** C9 (amended). When the document that ends the loop is a leaf without
    [url] elements, the homepage is requested: status 200 gives 1 and
    "Homepage only (estimate)"; an exception, and only an exception, gives
    "Domain inaccessible"; any other status gives 0 and "Single sitemap". *)
Theorem C9_empty_leaf_sitemap
    (net : network) (domain : string) (t : Z) (log : list request)
    (k : nat) (u : string) (root : Element) :
  let urls := sitemap_urls domain in
  let log_u := ((log ++ map (get_req t) (firstn k urls)) ++ [GET u t])%list in
  domain <> "" ->
  all_skipped net t (firstn k urls) log = true ->
  nth_error urls k = Some u ->
  parsed (net (log ++ map (get_req t) (firstn k urls))%list (GET u t)) = Some root ->
  findall_descendants root SITEMAP = [] ->
  count_urls root = 0%Z ->
  get_page_count net (Some domain) t log
  = (Ret (match net log_u (GET ("https://" ++ domain) 5) with
          | Raise _ => (0%Z, "Domain inaccessible")
          | Ret response =>
              if (status_code response =? 200)%Z
              then (1%Z, "Homepage only (estimate)")
              else (0%Z, "Single sitemap")
          end),
     (log_u ++ [GET ("https://" ++ domain) 5])%list).
Proof.
  intros urls log_u Hd Hskip Hnth Hp Hleaf Hzero.
  pose proof (try_sitemap_urls_at net t urls k u root 0%Z "No sitemap found" log
                Hskip Hnth Hp) as H.
  cbv zeta in H. rewrite Hleaf, Hzero in H. fold log_u in H.
  destruct domain as [|c domain]; [contradiction|].
  rewrite get_page_count_eq. fold urls. rewrite H, homepage_check_eq.
  reflexivity.
Qed.

(** C9, where the empty sitemap is served and the homepage answers 404. *)
Lemma C9_empty_leaf_sitemap_witness :
  "a.com" <> ""
  /\ parsed (empty_sitemap_server [] (GET "https://a.com/sitemap.xml" 20)) = Some (urlset 0)
  /\ get_page_count empty_sitemap_server (Some "a.com") 20 []
     = (Ret (0%Z, "Single sitemap"),
        [GET "https://a.com/sitemap.xml" 20; GET "https://a.com" 5]).
Proof.
  split; [discriminate|]. split; [reflexivity|].
  refine (C9_empty_leaf_sitemap empty_sitemap_server "a.com" 20 [] 0
            "https://a.com/sitemap.xml" (urlset 0) _ eq_refl eq_refl eq_refl eq_refl eq_refl).
  discriminate.
Defined.

(** C9 as stated fails: the first location serves a well-formed leaf
    without [url] elements, the homepage answers 404, and the result is 0
    and "Single sitemap". *)
Lemma C9_zero_single_sitemap :
  parsed (empty_sitemap_server [] (GET "https://a.com/sitemap.xml" 20)) = Some (urlset 0)
  /\ findall_descendants (urlset 0) SITEMAP = []
  /\ count_urls (urlset 0) = 0%Z
  /\ fst (get_page_count empty_sitemap_server (Some "a.com") 20 [])
     = Ret (0%Z, "Single sitemap").
Proof. repeat split. Qed.

(** C10. For [None] and for the empty string, [get_page_count] returns 0 and
    "Invalid domain" and leaves the log of requests as it was; that method is
    not one of the documented ones. *)
Theorem C10_invalid_domain (net : network) (t : Z) (log : list request) :
  get_page_count net None t log = (Ret (0%Z, "Invalid domain"), log)
  /\ get_page_count net (Some "") t log = (Ret (0%Z, "Invalid domain"), log)
  /\ ~ documented_method "Invalid domain".
Proof.
  repeat split. apply not_documented_invalid.
Qed.

Section GetPageCountResult.

Variable net : network.
Variable t : Z.

(** What [get_page_count] returns: a count that is not negative, and one of
    six methods; "Invalid domain" only for a domain that is false. *)
Lemma get_page_count_returns domain log pages method log' :
  get_page_count net domain t log = (Ret (pages, method), log') ->
  (0 <= pages)%Z
  /\ returned_method method
  /\ (truthy domain = true -> method <> "Invalid domain").
Proof.
  destruct domain as [[|c domain]|];
    try (intros H; injection H as <- <- _;
         split; [lia | split; [constructor | discriminate]]).
  rewrite get_page_count_eq.
  destruct (try_sitemap_urls _ _ _ _ _ _) as [[[total m]|e] log1] eqn:Hloop;
    [|discriminate].
  pose proof (try_sitemap_urls_nonneg net t _ _ _ _ _ _ (Z.le_refl 0) Hloop) as Hnn.
  pose proof (try_sitemap_urls_method net t _ _ _ _ _ _ Hloop) as Hm.
  cbn [fst snd] in Hnn, Hm.
  rewrite homepage_check_eq. intros H.
  assert (Hret : returned_method m /\ m <> "Invalid domain").
  { destruct Hm as [->|[->|[n ->]]]; split; try constructor; discriminate. }
  destruct (total =? 0)%Z.
  - unfold after_homepage in H.
    destruct (net log1 (homepage (String c domain))) as [resp|e].
    + destruct (status_code resp =? 200)%Z; injection H as <- <- _.
      * split; [lia | split; [constructor | discriminate]].
      * split; [lia | tauto].
    + injection H as <- <- _. split; [lia | split; [constructor | discriminate]].
  - injection H as <- <- _. tauto.
Qed.

(** What [get_page_count] raises is never a [TimeoutError]. *)
Lemma get_page_count_raises domain log e log' :
  get_page_count net domain t log = (Raise e, log') ->
  exc_class_eqb (exc_type e) TimeoutError = false.
Proof.
  destruct domain as [[|c domain]|]; try discriminate.
  rewrite get_page_count_eq.
  destruct (try_sitemap_urls _ _ _ _ _ _) as [[[total m]|e0] log1] eqn:Hloop;
    [discriminate|].
  intros H. injection H as <- _.
  apply (try_sitemap_urls_raise net t _ _ _ _ _ _ Hloop).
Qed.

End GetPageCountResult.

(* ================================================================== *)
(** * The caller's list of domains *)
(* ================================================================== *)

Lemma pystr_eqb_refl k : pystr_eqb k k = true.
Proof. destruct k as [x|]; simpl; [apply String.eqb_refl | reflexivity]. Qed.

Lemma dict_fromkeys_NoDup l : NoDup (dict_fromkeys l).
Proof.
  induction l as [|k l IH]; simpl; constructor.
  - intros H. apply filter_In in H as [_ H].
    now rewrite pystr_eqb_refl in H.
  - now apply NoDup_filter.
Qed.

Lemma dict_fromkeys_In l x : In x (dict_fromkeys l) -> In x l.
Proof.
  induction l as [|k l IH]; simpl; [tauto|].
  intros [H|H]; [now left|]. apply filter_In in H as [H _]. right. now apply IH.
Qed.

Lemma unique_domains_spec url_input domains :
  unique_domains url_input = Ret domains ->
  NoDup domains /\ Forall (fun d => truthy d = true) domains.
Proof.
  unfold unique_domains.
  destruct (comprehension _ _) as [ds|e]; [|discriminate].
  intros H. injection H as <-. split; [apply dict_fromkeys_NoDup|].
  apply Forall_forall. intros d Hd.
  apply dict_fromkeys_In, filter_In in Hd. tauto.
Qed.

(* ================================================================== *)
(** * [process_domains_batch]: the futures and the loop *)
(* ================================================================== *)

Lemma insert_by_completion_perm f l : Permutation (insert_by_completion f l) (f :: l).
Proof.
  induction l as [|g l IH]; simpl; [reflexivity|].
  destruct (fut_done_at f <=? fut_done_at g)%Z; [reflexivity|].
  rewrite IH. apply perm_swap.
Qed.

Lemma completion_order_perm l : Permutation (fold_right insert_by_completion [] l) l.
Proof.
  induction l as [|f l IH]; simpl; [reflexivity|].
  rewrite insert_by_completion_perm. now constructor.
Qed.

Lemma handle_result_domain d r : Domain (handle_result d r) = d.
Proof.
  destruct r as [[pages method]|e]; simpl; [reflexivity|].
  destruct (exc_class_eqb _ _); reflexivity.
Qed.

Lemma returned_method_not_timeout m : returned_method m -> m <> "Timeout".
Proof. intros H; inversion H; discriminate. Qed.

Lemma returned_method_documented m :
  returned_method m ->
  documented_method m \/ m = "No sitemap found" \/ m = "Invalid domain".
Proof. intros H; inversion H; subst; auto using documented_method. Qed.

Section Batch.

Variable world : nat -> task_world.

Lemma submit_all_In ds : forall i f d,
  In (f, d) (submit_all world i ds) ->
  exists j, nth_error ds j = Some d /\ f = submit world (i + j) d.
Proof.
  induction ds as [|a ds IH]; intros i f d H; simpl in H; [contradiction|].
  destruct H as [H|H].
  - injection H as <- <-. exists 0. now rewrite Nat.add_0_r.
  - apply IH in H as [j [Hj ->]]. exists (S j). now rewrite Nat.add_succ_r.
Qed.

Lemma submit_all_nth ds : forall i j d,
  nth_error ds j = Some d -> In (submit world (i + j) d, d) (submit_all world i ds).
Proof.
  induction ds as [|a ds IH]; intros i [|j] d H; simpl in *; try discriminate.
  - injection H as ->. left. now rewrite Nat.add_0_r.
  - right. rewrite Nat.add_succ_r. now apply (IH (S i)).
Qed.

Lemma submit_all_domains ds : forall i, map snd (submit_all world i ds) = ds.
Proof. induction ds as [|a ds IH]; intros i; simpl; [reflexivity | now rewrite IH]. Qed.

(** Futures are distinct objects: looking one up gives its own domain. *)
Lemma dict_get_submit_all ds : forall i f d,
  In (f, d) (submit_all world i ds) -> dict_get (submit_all world i ds) f = Ret d.
Proof.
  induction ds as [|a ds IH]; intros i f d H; simpl in *; [contradiction|].
  destruct H as [H|H].
  - injection H as <- <-. simpl. now rewrite Nat.eqb_refl.
  - pose proof (submit_all_In _ _ _ _ H) as [j [_ Hf]].
    assert (Hid : fut_id f = S i + j) by now rewrite Hf.
    cbn [submit fut_id]. rewrite Hid.
    replace (i =? S i + j)%nat with false by (symmetry; apply Nat.eqb_neq; lia).
    now apply IH.
Qed.

(** A future handed over by [as_completed] is complete: waiting for its
    result with a timeout returns the outcome of the task at once. *)
Lemma future_result_completed f now t :
  (fut_done_at f <= now)%Z -> (0 <= t)%Z -> future_result f now t = fut_outcome f.
Proof.
  intros H Ht. unfold future_result.
  now replace (fut_done_at f <=? now + t)%Z with true by (symmetry; apply Z.leb_le; lia).
Qed.

Lemma completion_loop_results ftd total cb ys : forall st,
  (forall f, In f ys -> exists d, dict_get ftd f = Ret d) ->
  exists st',
    completion_loop ftd total cb ys st = Ret st'
    /\ results st' = (results st ++ map (record_of ftd) ys)%list.
Proof.
  induction ys as [|f ys IH]; intros st Hin; simpl.
  - exists st. now rewrite app_nil_r.
  - destruct (Hin f (or_introl eq_refl)) as [d Hd]. rewrite Hd.
    rewrite future_result_completed by lia.
    edestruct IH as [st' [Hloop Hres]]; [intros g Hg; apply Hin; now right|].
    exists st'. split; [exact Hloop|].
    rewrite Hres. cbn [results]. rewrite <- app_assoc. simpl.
    unfold record_of at 2. now rewrite Hd.
Qed.

(** The batch: [TimeoutError] when a future is still pending after 300
    seconds, and otherwise one record per future, in order of completion. *)
Lemma process_domains_batch_eq domains cb :
  let ftd := submit_all world 0 domains in
  process_domains_batch world domains cb
  = match snd (as_completed (map fst ftd) 300) with
    | Some e => Raise e
    | None => Ret (map (record_of ftd) (fst (as_completed (map fst ftd) 300)))
    end.
Proof.
  intros ftd. unfold process_domains_batch. fold ftd.
  destruct (as_completed (map fst ftd) 300) as [ys expiry] eqn:E. cbn [fst snd].
  destruct (completion_loop_results ftd (Z.of_nat (length domains)) cb ys
              (mkLoop 0 [] 0 [])) as [st' [Hloop Hres]].
  - intros f Hf.
    assert (Hys : ys = fst (as_completed (map fst ftd) 300)) by now rewrite E.
    rewrite Hys in Hf. unfold as_completed in Hf. cbn [fst] in Hf.
    apply (Permutation_in _ (completion_order_perm _)) in Hf.
    apply filter_In in Hf as [Hf _]. apply in_map_iff in Hf as [[g d] [<- Hg]].
    exists d. now apply dict_get_submit_all.
  - rewrite Hloop, Hres. reflexivity.
Qed.

Lemma as_completed_all fs timeout :
  Forall (fun f => (fut_done_at f <= timeout)%Z) fs ->
  as_completed fs timeout = (fold_right insert_by_completion [] fs, None).
Proof.
  intros H. unfold as_completed.
  assert (H1 : List.filter (fun f => (fut_done_at f <=? timeout)%Z) fs = fs).
  { induction H as [|f fs Hf _ IH]; simpl; [reflexivity|].
    apply Z.leb_le in Hf. now rewrite Hf, IH. }
  assert (H2 : List.filter (fun f => negb (fut_done_at f <=? timeout)%Z) fs = []).
  { clear H1. induction H as [|f fs Hf _ IH]; simpl; [reflexivity|].
    apply Z.leb_le in Hf. now rewrite Hf. }
  now rewrite H1, H2.
Qed.

Lemma as_completed_pending fs timeout f :
  In f fs -> (timeout < fut_done_at f)%Z ->
  exists e, snd (as_completed fs timeout) = Some e /\ exc_type e = TimeoutError.
Proof.
  intros Hin Hlate. unfold as_completed. cbn [snd].
  destruct (List.filter (fun f => negb (fut_done_at f <=? timeout)%Z) fs) as [|g l] eqn:E.
  - assert (Hf : In f []).
    { rewrite <- E. apply filter_In. split; [assumption|].
      apply negb_true_iff, Z.leb_gt. assumption. }
    contradiction.
  - eexists. split; reflexivity.
Qed.

(** The record of a submitted task. *)
Lemma record_of_submitted domains f d :
  In (f, d) (submit_all world 0 domains) ->
  exists j,
    nth_error domains j = Some d
    /\ record_of (submit_all world 0 domains) f
       = handle_result d (fst (get_page_count (tw_net (world j)) d 20 [])).
Proof.
  intros H. unfold record_of. rewrite (dict_get_submit_all _ _ _ _ H).
  apply submit_all_In in H as [j [Hj ->]]. exists j. split; [assumption|reflexivity].
Qed.

Lemma handle_result_sound net d r :
  r = handle_result d (fst (get_page_count net d 20 [])) ->
  Domain r = d
  /\ (0 <= Pages r)%Z
  /\ Method r <> "Timeout"
  /\ (documented_method (Method r) \/ Method r = "No sitemap found"
      \/ (truthy d = false /\ Method r = "Invalid domain")).
Proof.
  intros ->. split; [apply handle_result_domain|].
  destruct (get_page_count net d 20 []) as [[[pages method]|e] log'] eqn:E; cbn [fst].
  - apply get_page_count_returns in E as [Hp [Hm Hinv]]. simpl.
    repeat split; try assumption.
    + now apply returned_method_not_timeout.
    + destruct (returned_method_documented _ Hm) as [H|[H|H]]; auto.
      right; right. split; [|assumption].
      destruct (truthy d); [now elim Hinv | reflexivity].
  - apply get_page_count_raises in E. simpl. rewrite E. simpl.
    repeat split; try lia; try discriminate.
    left. constructor.
Qed.

End Batch.

(* ================================================================== *)
(** * [process_domains_batch]: the result *)
(* ================================================================== *)

Section BatchResult.

Variable world : nat -> task_world.

(** When every future completes within 300 seconds, the batch returns, and
    its records are those of the tasks, one for each. *)
Lemma process_domains_batch_complete domains cb :
  (forall j, j < length domains -> (tw_done_at (world j) <= 300)%Z) ->
  exists results,
    process_domains_batch world domains cb = Ret results
    /\ Permutation (map Domain results) domains
    /\ (forall r, In r results ->
          exists j d, nth_error domains j = Some d /\ r = task_record world j d)
    /\ (forall j d, nth_error domains j = Some d -> In (task_record world j d) results).
Proof.
  intros Hdone.
  set (ftd := submit_all world 0 domains).
  assert (Hall : Forall (fun f => (fut_done_at f <= 300)%Z) (map fst ftd)).
  { apply Forall_forall. intros f Hf.
    apply in_map_iff in Hf as [[g d] [<- Hg]].
    apply submit_all_In in Hg as [j [Hj ->]]. simpl.
    apply Hdone. apply nth_error_Some. congruence. }
  pose proof (process_domains_batch_eq world domains cb) as Heq.
  cbv zeta in Heq. fold ftd in Heq.
  rewrite (as_completed_all _ _ Hall) in Heq. cbn [fst snd] in Heq.
  pose proof (completion_order_perm (map fst ftd)) as Hperm.
  eexists. split; [exact Heq|]. split; [|split].
  - apply Permutation_trans with (map Domain (map (record_of ftd) (map fst ftd))).
    + apply Permutation_map, Permutation_map, Hperm.
    + rewrite !map_map. apply Permutation_refl'.
      transitivity (map snd ftd); [|apply submit_all_domains].
      apply map_ext_in. intros [f d] Hfd. simpl.
      unfold record_of. rewrite handle_result_domain.
      unfold ftd. now rewrite (dict_get_submit_all world _ _ _ _ Hfd).
  - intros r Hr. apply in_map_iff in Hr as [f [<- Hf]].
    apply (Permutation_in _ Hperm) in Hf.
    apply in_map_iff in Hf as [[g d] [<- Hg]]. simpl.
    destruct (record_of_submitted world domains g d Hg) as [j [Hj Hrec]].
    exists j, d. split; assumption.
  - intros j d Hj.
    pose proof (submit_all_nth world domains 0 j d Hj) as Hin. fold ftd in Hin.
    destruct (record_of_submitted world domains _ d Hin) as [j' [_ Hrec]].
    apply in_map_iff. exists (submit world (0 + j) d). split.
    + unfold record_of. fold ftd.
      unfold ftd. rewrite (dict_get_submit_all world _ _ _ _ Hin). reflexivity.
    + apply (Permutation_in _ (Permutation_sym Hperm)).
      apply in_map_iff. exists (submit world (0 + j) d, d). split; [reflexivity|assumption].
Qed.

Lemma take_length n : forall s, String.length (Str.take n s) <= n.
Proof.
  induction n as [|n IH]; intros [|c s]; simpl; try lia.
  specialize (IH s). lia.
Qed.

(** A fault other than [TimeoutError] is recorded with 0 pages and with at
    most the first 50 characters of its message. *)
Lemma handle_result_error d e :
  exc_class_eqb (exc_type e) TimeoutError = false ->
  handle_result d (Raise e) = mkResult d 0 ("Error: " ++ Str.take 50 (exc_str e))
  /\ String.length (Str.take 50 (exc_str e)) <= 50.
Proof.
  intros H. split; [|apply take_length].
  unfold handle_result. now rewrite H.
Qed.

End BatchResult.

(** C1 (the code departs from it). When some future is still pending 300
    seconds after [as_completed] was called, [process_domains_batch] does not
    return the records gathered so far: the [TimeoutError] of [as_completed]
    leaves the function. *)
Theorem C1_batch_deadline_raises
    (world : nat -> task_world) (domains : list (option string)) (cb : bool) (i : nat) :
  i < length domains ->
  (300 < tw_done_at (world i))%Z ->
  exists e,
    process_domains_batch world domains cb = Raise e
    /\ exc_type e = TimeoutError.
Proof.
  intros Hi Hlate.
  destruct (nth_error domains i) as [d|] eqn:Hd;
    [|apply nth_error_None in Hd; lia].
  pose proof (submit_all_nth world domains 0 i d Hd) as Hin.
  rewrite process_domains_batch_eq. cbv zeta.
  destruct (as_completed_pending
              (map fst (submit_all world 0 domains)) 300 (submit world (0 + i) d))
    as [e [He Ht]].
  - apply in_map_iff. exists (submit world (0 + i) d, d). split; [reflexivity|assumption].
  - exact Hlate.
  - exists e. rewrite He. split; [reflexivity | assumption].
Qed.

(** C1, on a batch of two whose first task is done after 2 seconds and
    whose second is still running after 300. *)
Lemma C1_batch_deadline_raises_witness :
  1 < length [Some "a.com"; Some "b.org"]
  /\ (300 < tw_done_at (stuck_world 1))%Z
  /\ exists e,
       process_domains_batch stuck_world [Some "a.com"; Some "b.org"] true = Raise e
       /\ exc_type e = TimeoutError.
Proof.
  split; [repeat constructor|]. split; [reflexivity|].
  apply (C1_batch_deadline_raises stuck_world [Some "a.com"; Some "b.org"] true 1);
    [repeat constructor | reflexivity].
Defined.

(** The same batch, evaluated: the record of the first domain is lost. *)
Example stuck_batch :
  fst (get_page_count (tw_net (stuck_world 0)) (Some "a.com") 20 [])
  = Ret (5%Z, "Single sitemap")
  /\ process_domains_batch stuck_world [Some "a.com"; Some "b.org"] true
     = Raise (mkExc TimeoutError "1 (of 2) futures unfinished").
Proof. split; reflexivity. Qed.

(** C2 (amended). For the domains the caller extracts from its input, and
    when every task completes within 300 seconds, the batch returns exactly
    one record per domain: the domains are pairwise distinct and the domains
    of the records are a rearrangement of them.  Every record has a count
    that is not negative and a method that is documented or is
    "No sitemap found". *)
Theorem C2_one_record_per_domain
    (world : nat -> task_world) (url_input : string)
    (domains : list (option string)) (cb : bool) :
  unique_domains url_input = Ret domains ->
  (forall j, j < length domains -> (tw_done_at (world j) <= 300)%Z) ->
  exists results,
    process_domains_batch world domains cb = Ret results
    /\ NoDup domains
    /\ Permutation (map Domain results) domains
    /\ Forall (fun r => (0 <= Pages r)%Z
                        /\ (documented_method (Method r)
                            \/ Method r = "No sitemap found")) results.
Proof.
  intros Hu Hdone.
  apply unique_domains_spec in Hu as [Hnd Htruthy].
  destruct (process_domains_batch_complete world domains cb Hdone)
    as [results [Heq [Hperm [Hrec _]]]].
  exists results. repeat split; try assumption.
  apply Forall_forall. intros r Hr.
  destruct (Hrec r Hr) as [j [d [Hj Hrd]]].
  apply handle_result_sound in Hrd as [Hdom [Hp [_ Hm]]].
  split; [assumption|].
  destruct Hm as [Hm|[Hm|[Hf _]]]; auto.
  rewrite Forall_forall in Htruthy.
  apply nth_error_In in Hj. rewrite (Htruthy d Hj) in Hf. discriminate.
Qed.

(** C2, on the three lines of the end-to-end example. *)
Lemma C2_one_record_per_domain_witness :
  unique_domains example_input = Ret [Some "a.com"; Some "b.org"]
  /\ exists results,
       process_domains_batch missing_world [Some "a.com"; Some "b.org"] true = Ret results
       /\ NoDup [Some "a.com"; Some "b.org"]
       /\ Permutation (map Domain results) [Some "a.com"; Some "b.org"]
       /\ Forall (fun r => (0 <= Pages r)%Z
                           /\ (documented_method (Method r)
                               \/ Method r = "No sitemap found")) results.
Proof.
  split; [reflexivity|].
  apply (C2_one_record_per_domain missing_world example_input _ true eq_refl).
  intros j _. discriminate.
Defined.

(** C2 as stated fails: for a domain whose pages, homepage included, all
    answer 404, the record has a method outside the documented set. *)
Lemma C2_method_outside_documented_set :
  unique_domains "a.com" = Ret [Some "a.com"]
  /\ process_domains_batch missing_world [Some "a.com"] false
     = Ret [mkResult (Some "a.com") 0 "No sitemap found"]
  /\ ~ documented_method "No sitemap found".
Proof.
  repeat split. apply not_documented_no_sitemap.
Qed.

(** C4 (the code departs from it). A task that takes more than 25 seconds
    and completes within the 300 seconds of the batch is recorded with what
    it returned, not with "Timeout" and 0: [future.result(timeout=25)] is
    only called on futures that [as_completed] has handed over, which are
    complete.  No record of a batch ever has the method "Timeout". *)
Theorem C4_slow_task_keeps_its_result
    (world : nat -> task_world) (domains : list (option string)) (cb : bool)
    (i : nat) (d : option string) (pages : Z) (method : string) :
  (forall j, j < length domains -> (tw_done_at (world j) <= 300)%Z) ->
  nth_error domains i = Some d ->
  (25 < tw_done_at (world i))%Z ->
  fst (get_page_count (tw_net (world i)) d 20 []) = Ret (pages, method) ->
  exists results,
    process_domains_batch world domains cb = Ret results
    /\ In (mkResult d pages method) results
    /\ Forall (fun r => Method r <> "Timeout") results.
Proof.
  intros Hdone Hi _ Hret.
  destruct (process_domains_batch_complete world domains cb Hdone)
    as [results [Heq [_ [Hrec Hin]]]].
  exists results. split; [assumption|]. split.
  - specialize (Hin i d Hi). unfold task_record in Hin. now rewrite Hret in Hin.
  - apply Forall_forall. intros r Hr.
    destruct (Hrec r Hr) as [j [d' [_ Hrd]]].
    now apply handle_result_sound in Hrd as [_ [_ [Hm _]]].
Qed.

(** C4, on a batch of one task that counts five pages in 30 seconds. *)
Lemma C4_slow_task_keeps_its_result_witness :
  (25 < tw_done_at (slow_world 0))%Z
  /\ fst (get_page_count (tw_net (slow_world 0)) (Some "a.com") 20 [])
     = Ret (5%Z, "Single sitemap")
  /\ exists results,
       process_domains_batch slow_world [Some "a.com"] true = Ret results
       /\ In (mkResult (Some "a.com") 5 "Single sitemap") results
       /\ Forall (fun r => Method r <> "Timeout") results.
Proof.
  split; [reflexivity|]. split; [reflexivity|].
  apply (C4_slow_task_keeps_its_result slow_world [Some "a.com"] true 0
           (Some "a.com") 5 "Single sitemap");
    try reflexivity.
  intros j _. discriminate.
Defined.

(** The same batch, evaluated. *)
Example slow_batch :
  process_domains_batch slow_world [Some "a.com"] true
  = Ret [mkResult (Some "a.com") 5 "Single sitemap"].
Proof. reflexivity. Qed.

(** A task whose session raises is recorded with 0 pages and the first 50
    characters of the message. *)
Example faulty_batch :
  process_domains_batch faulty_world [Some "a.com"] true
  = Ret [mkResult (Some "a.com") 0
           "Error: 01234567890123456789012345678901234567890123456789"].
Proof. reflexivity. Qed.

(* ================================================================== *)
(** * More on [clean_domain] *)
(* ================================================================== *)

Lemma lstrip_with_head p s :
  match Str.lstrip_with p s with
  | EmptyString => True
  | String c _ => p c = false
  end.
Proof.
  induction s as [|c s IH]; simpl; [exact I|].
  destruct (p c) eqn:E; [exact IH | exact E].
Qed.

Lemma rstrip_with_all p ws :
  Str.forallb p ws = true -> Str.rstrip_with p ws = "".
Proof.
  induction ws as [|c ws IH]; simpl; [reflexivity|].
  intros H. apply andb_true_iff in H as [Hc Hw].
  now rewrite (IH Hw), Hc.
Qed.

Lemma rstrip_with_app_all p ws s :
  Str.forallb p ws = true -> Str.rstrip_with p (s ++ ws) = Str.rstrip_with p s.
Proof.
  intros H. induction s as [|c s IH]; simpl.
  - now apply rstrip_with_all.
  - now rewrite IH.
Qed.

Lemma lstrip_with_all p ws :
  Str.forallb p ws = true -> Str.lstrip_with p ws = "".
Proof.
  induction ws as [|c ws IH]; simpl; [reflexivity|].
  intros H. apply andb_true_iff in H as [Hc Hw]. rewrite Hc. now apply IH.
Qed.

Lemma lstrip_with_all_app p ws s :
  Str.forallb p ws = true -> Str.lstrip_with p (ws ++ s) = Str.lstrip_with p s.
Proof.
  induction ws as [|c ws IH]; simpl; [reflexivity|].
  intros H. apply andb_true_iff in H as [Hc Hw]. rewrite Hc. now apply IH.
Qed.

(** A text that ends in a character outside [p] is not shortened by what is
    appended to it. *)
Lemma rstrip_with_app_kept p a b :
  a <> "" -> Str.rstrip_with p a = a ->
  Str.rstrip_with p (a ++ b) = a ++ Str.rstrip_with p b.
Proof.
  induction a as [|c a IH]; [congruence|]. intros _ H. simpl in *.
  destruct a as [|c' a].
  - simpl in *. destruct (p c); [discriminate|]. reflexivity.
  - destruct (p c && Str.is_empty (Str.rstrip_with p (String c' a))) eqn:E;
      [discriminate|].
    injection H as H. rewrite IH by (congruence || assumption).
    simpl. now rewrite andb_false_r.
Qed.

Lemma strip_app_spaces ws s :
  Str.forallb Str.isspace ws = true -> Str.strip (s ++ ws) = Str.strip s.
Proof.
  intros H. unfold Str.strip. induction s as [|c s IH]; simpl.
  - now rewrite lstrip_with_all.
  - destruct (Str.isspace c) eqn:E; [exact IH|].
    change (String c (s ++ ws)) with (String c s ++ ws).
    now apply rstrip_with_app_all.
Qed.

Lemma strip_idem s : Str.strip (Str.strip s) = Str.strip s.
Proof.
  unfold Str.strip.
  pose proof (lstrip_with_head Str.isspace s) as Hh.
  destruct (Str.lstrip_with Str.isspace s) as [|c a]; [reflexivity|].
  simpl. rewrite Hh. simpl. rewrite Hh. simpl. rewrite Hh. simpl.
  now rewrite rstrip_with_idem.
Qed.

(** X1. White space around the input does not matter to [clean_domain]. *)
Theorem X1_clean_domain_ignores_outer_space (ws1 s ws2 : string) :
  Str.forallb Str.isspace ws1 = true ->
  Str.forallb Str.isspace ws2 = true ->
  clean_domain (Some (ws1 ++ s ++ ws2)) = clean_domain (Some s).
Proof.
  intros H1 H2. rewrite !clean_domain_trimmed.
  assert (Hs : Str.strip (ws1 ++ s ++ ws2) = Str.strip s).
  { unfold Str.strip at 1. rewrite lstrip_with_all_app by assumption.
    now apply strip_app_spaces. }
  now rewrite Hs.
Qed.

Lemma X1_clean_domain_ignores_outer_space_witness :
  clean_domain (Some ("  " ++ "Example.com" ++ String "009" (String "010" "")))
  = clean_domain (Some "Example.com").
Proof.
  apply (X1_clean_domain_ignores_outer_space "  " "Example.com"
           (String "009" (String "010" ""))); reflexivity.
Defined.

Lemma is_delim_lower_char c : Url.is_delim (Str.lower_char c) = Url.is_delim c.
Proof. destruct c as [[] [] [] [] [] [] [] []]; vm_compute; reflexivity. Qed.

Lemma no_delimiter_until_delim s : no_delimiter (Url.until_delim s) = true.
Proof.
  unfold no_delimiter. induction s as [|c s IH]; simpl; [reflexivity|].
  destruct (Url.is_delim c) eqn:E; simpl; [reflexivity|].
  now rewrite E.
Qed.

Lemma no_delimiter_lower s : no_delimiter (Str.lower s) = no_delimiter s.
Proof.
  unfold no_delimiter. induction s as [|c s IH]; simpl; [reflexivity|].
  now rewrite is_delim_lower_char, IH.
Qed.

Lemma no_delimiter_drop n : forall s,
  no_delimiter s = true -> no_delimiter (Str.drop n s) = true.
Proof.
  unfold no_delimiter.
  induction n as [|n IH]; intros [|c s] H; simpl in *; try assumption; try reflexivity.
  apply andb_true_iff in H as [_ H]. now apply IH.
Qed.

Lemma no_delimiter_rstrip p s :
  no_delimiter s = true -> no_delimiter (Str.rstrip_with p s) = true.
Proof.
  unfold no_delimiter. induction s as [|c s IH]; simpl; [reflexivity|].
  intros H. apply andb_true_iff in H as [Hc Hs].
  destruct (p c && Str.is_empty (Str.rstrip_with p s)); simpl; [reflexivity|].
  now rewrite Hc, IH.
Qed.

(** X2. For an input that is an http(s) URL, [clean_domain] drops the path,
    the query and the fragment: the domain it yields holds no [/], [?]
    or [#]. *)
Theorem X2_clean_domain_drops_the_path (s d : string) :
  Str.startswith (Str.strip s) "http://" || Str.startswith (Str.strip s) "https://" = true ->
  clean_domain (Some s) = Ret (Some d) ->
  no_delimiter d = true.
Proof.
  intros Hurl. rewrite clean_domain_trimmed.
  rewrite Hurl. unfold Url.netloc.
  set (rest := Url.after_scheme _).
  assert (Hshape : forall host,
             no_delimiter host = true ->
             no_delimiter (Str.rstrip_slash (sub_leading_www (Str.lower host))) = true).
  { intros host Hh. apply no_delimiter_rstrip. unfold sub_leading_www.
    destruct (Str.startswith (Str.lower host) "www.");
      [apply no_delimiter_drop|]; now rewrite no_delimiter_lower. }
  destruct (Str.startswith rest "//").
  - specialize (Hshape _ (no_delimiter_until_delim (Str.drop 2 rest))).
    cbv zeta.
    destruct (xorb _ _); [discriminate|].
    destruct (_ && _);
      [destruct (Url.check_bracketed_netloc _); [discriminate|]|];
      (destruct (Str.rstrip_slash _); cbn [Str.is_empty]; [discriminate|];
       intros H; injection H as <-; exact Hshape).
  - cbn. discriminate.
Qed.

Lemma X2_clean_domain_drops_the_path_witness :
  clean_domain (Some " https://Shop.Example.com:8080/a/b?q=1#top ")
  = Ret (Some "shop.example.com:8080")
  /\ no_delimiter "shop.example.com:8080" = true.
Proof.
  split; [reflexivity|].
  apply (X2_clean_domain_drops_the_path
           " https://Shop.Example.com:8080/a/b?q=1#top " "shop.example.com:8080");
    reflexivity.
Defined.

(** A text that is not a URL keeps its path. *)
Example clean_domain_keeps_the_path_of_a_bare_domain :
  clean_domain (Some "example.com/shop") = Ret (Some "example.com/shop").
Proof. reflexivity. Qed.

Lemma strip_app_kept a r :
  Str.lstrip_with Str.isspace a = a -> a <> "" ->
  Str.rstrip_with Str.isspace a = a ->
  Str.strip (a ++ r) = a ++ Str.rstrip_with Str.isspace r.
Proof.
  intros Hl Hne Hr. unfold Str.strip.
  assert (Hla : Str.lstrip_with Str.isspace (a ++ r) = a ++ r).
  { destruct a as [|c a]; [congruence|]. simpl in *.
    destruct (Str.isspace c) eqn:E; [|reflexivity].
    exfalso. pose proof (lstrip_with_head Str.isspace a) as Hh.
    rewrite Hl in Hh. congruence. }
  rewrite Hla. now apply rstrip_with_app_kept.
Qed.

(** X3. [clean_domain] does not tell http from https: the two URLs with the
    same remainder give the same result. *)
Theorem X3_clean_domain_scheme_blind (r : string) :
  clean_domain (Some ("http://" ++ r)) = clean_domain (Some ("https://" ++ r)).
Proof.
  rewrite !clean_domain_trimmed.
  rewrite (strip_app_kept "http://" r), (strip_app_kept "https://" r)
    by (reflexivity || discriminate).
  generalize (Str.rstrip_with Str.isspace r) as x. intros x.
  assert (Hn : Url.netloc ("http://" ++ x) = Url.netloc ("https://" ++ x))
    by (unfold Url.netloc; simpl; reflexivity).
  assert (H1 : Str.startswith ("http://" ++ x) "http://" = true)
    by (unfold Str.startswith; simpl; now destruct x).
  assert (H2 : Str.startswith ("https://" ++ x) "http://" = false) by reflexivity.
  assert (H3 : Str.startswith ("https://" ++ x) "https://" = true)
    by (unfold Str.startswith; simpl; now destruct x).
  rewrite H1, H2, H3, Hn. reflexivity.
Qed.

(* ================================================================== *)
(** * More on the caller's list of domains *)
(* ================================================================== *)

Lemma pystr_eqb_eq a b : pystr_eqb a b = true <-> a = b.
Proof.
  destruct a as [x|], b as [y|]; simpl; split; intros H;
    try discriminate; try reflexivity.
  - apply String.eqb_eq in H. now subst.
  - injection H as ->. apply String.eqb_refl.
Qed.

Lemma dict_fromkeys_In_iff l x : In x (dict_fromkeys l) <-> In x l.
Proof.
  split; [apply dict_fromkeys_In|].
  induction l as [|k l IH]; simpl; [tauto|].
  intros [H|H]; [now left|].
  destruct (pystr_eqb k x) eqn:E.
  - left. now apply pystr_eqb_eq.
  - right. apply filter_In. split; [now apply IH | now rewrite E].
Qed.

Lemma filter_twice {A} (p q : A -> bool) (l : list A) :
  List.filter p (List.filter q l) = List.filter (fun x => q x && p x) l.
Proof.
  induction l as [|a l IH]; simpl; [reflexivity|].
  destruct (q a); simpl; [destruct (p a)|]; now rewrite IH.
Qed.

Lemma dict_fromkeys_app l1 : forall l2,
  dict_fromkeys (l1 ++ l2)
  = (dict_fromkeys l1
     ++ List.filter (fun k => negb (existsb (fun k1 => pystr_eqb k1 k) l1))
                    (dict_fromkeys l2))%list.
Proof.
  induction l1 as [|k l1 IH]; intros l2; simpl.
  - symmetry. apply forallb_filter_id. apply forallb_forall. reflexivity.
  - f_equal. rewrite IH, filter_app, filter_twice. f_equal.
    apply filter_ext. intros x.
    destruct (pystr_eqb k x); simpl; [now rewrite andb_false_r | now rewrite andb_true_r].
Qed.

(** X4. [list(dict.fromkeys(l))] holds the elements of [l], none of them
    twice, in the order of their first occurrence: what comes from the front
    part of a list stays in front, followed by what the back part adds. *)
Theorem X4_dict_fromkeys_first_occurrences (l1 l2 : list (option string)) :
  NoDup (dict_fromkeys (l1 ++ l2))
  /\ (forall x, In x (dict_fromkeys (l1 ++ l2)) <-> In x l1 \/ In x l2)
  /\ dict_fromkeys (l1 ++ l2)
     = (dict_fromkeys l1
        ++ List.filter (fun k => negb (existsb (fun k1 => pystr_eqb k1 k) l1))
                       (dict_fromkeys l2))%list.
Proof.
  split; [apply dict_fromkeys_NoDup|]. split; [|apply dict_fromkeys_app].
  intros x. rewrite dict_fromkeys_In_iff. apply in_app_iff.
Qed.

Lemma comprehension_In {A B} (f : A -> pyresult B) (l : list A) : forall ys,
  comprehension f l = Ret ys ->
  forall y, In y ys <-> exists x, In x l /\ f x = Ret y.
Proof.
  induction l as [|a l IH]; simpl; intros ys H y.
  - injection H as <-. simpl. split; [tauto | intros [x [[] _]]].
  - destruct (f a) as [b|e] eqn:Ea; [|discriminate].
    destruct (comprehension f l) as [bs|e]; [|discriminate].
    injection H as <-. specialize (IH bs eq_refl y). simpl. split.
    + intros [<-|H]; [exists a; tauto|].
      apply IH in H as [x [Hx Hf]]. exists x. tauto.
    + intros [x [[<-|Hx] Hf]]; [left; congruence|].
      right. apply IH. eauto.
Qed.

Lemma comprehension_raises {A B} (f : A -> pyresult B) (l : list A) x e :
  In x l -> f x = Raise e -> exists e', comprehension f l = Raise e'.
Proof.
  induction l as [|a l IH]; simpl; [tauto|].
  intros [<-|Hx] Hf.
  - rewrite Hf. eauto.
  - destruct (f a) as [b|e0]; [|eauto].
    destruct (IH Hx Hf) as [e' ->]. eauto.
Qed.

(** X5. When no line makes [clean_domain] raise, the list handed to the
    batch holds exactly the domains [clean_domain] yields for the non-blank,
    trimmed lines of the input, each of them once. *)
Theorem X5_unique_domains_are_the_domains_of_the_lines
    (url_input : string) (domains : list (option string)) :
  unique_domains url_input = Ret domains ->
  NoDup domains
  /\ forall d,
       In d domains
       <-> truthy d = true
           /\ exists line, In line (input_lines url_input)
                           /\ clean_domain (Some line) = Ret d.
Proof.
  unfold unique_domains. fold (input_lines url_input).
  destruct (comprehension _ (input_lines url_input)) as [ds|e] eqn:E; [|discriminate].
  intros H. injection H as <-. split; [apply dict_fromkeys_NoDup|].
  intros d. rewrite dict_fromkeys_In_iff, filter_In.
  rewrite (comprehension_In _ _ _ E d). tauto.
Qed.

Lemma X5_unique_domains_are_the_domains_of_the_lines_witness :
  unique_domains example_input = Ret [Some "a.com"; Some "b.org"]
  /\ NoDup [Some "a.com"; Some "b.org"]
  /\ forall d,
       In d [Some "a.com"; Some "b.org"]
       <-> truthy d = true
           /\ exists line, In line (input_lines example_input)
                           /\ clean_domain (Some line) = Ret d.
Proof.
  split; [reflexivity|].
  exact (X5_unique_domains_are_the_domains_of_the_lines
           example_input [Some "a.com"; Some "b.org"] eq_refl).
Defined.

(** X6. One line on which [clean_domain] raises makes the whole preparation
    of the batch raise: no list of domains is produced. *)
Theorem X6_unique_domains_raises_with_a_line
    (url_input line : string) (e : exc) :
  In line (input_lines url_input) ->
  clean_domain (Some line) = Raise e ->
  exists e', unique_domains url_input = Raise e'.
Proof.
  intros Hin Hraise. unfold unique_domains. fold (input_lines url_input).
  destruct (comprehension_raises (fun l => clean_domain (Some l))
              (input_lines url_input) line e Hin Hraise) as [e' ->].
  eauto.
Qed.

Lemma X6_unique_domains_raises_with_a_line_witness :
  In "https://[::1/" (input_lines ("a.com" ++ String "010" "https://[::1/"))
  /\ exists e', unique_domains ("a.com" ++ String "010" "https://[::1/") = Raise e'.
Proof.
  split; [right; left; reflexivity|].
  apply (X6_unique_domains_raises_with_a_line
           ("a.com" ++ String "010" "https://[::1/") "https://[::1/"
           (mkExc ValueError "Invalid IPv6 URL")); [right; left|]; reflexivity.
Defined.

(* ================================================================== *)
(** * More on [get_page_count] *)
(* ================================================================== *)

Section GetPageCountMore.

Variable net : network.
Variable t : Z.

(** What leaves the loop was raised at a location, after the locations
    before it were passed over: by the GET, and of a class line 105 does not
    catch, or by the parser on the body of a 200 response, and of a class
    neither line 102 nor line 105 catches. *)
Lemma try_sitemap_urls_raise_origin urls : forall tp m log e log',
  try_sitemap_urls net t urls tp m log = (Raise e, log') ->
  exists k u,
    nth_error urls k = Some u
    /\ all_skipped net t (firstn k urls) log = true
    /\ (net (log ++ map (get_req t) (firstn k urls))%list (GET u t) = Raise e
        \/ (parser_fault (net (log ++ map (get_req t) (firstn k urls))%list (GET u t))
            = Some e
            /\ caught_line_102 e = false))
    /\ caught_line_105 e = false
    /\ log' = ((log ++ map (get_req t) (firstn k urls)) ++ [GET u t])%list.
Proof.
  induction urls as [|u urls IH]; intros tp m log e log' H; simpl in H; [discriminate|].
  assert (Hnext : try_sitemap_urls net t urls tp m (log ++ [GET u t])%list = (Raise e, log') ->
                  skipped (net log (GET u t)) = true ->
                  exists k v,
                    nth_error (u :: urls) k = Some v
                    /\ all_skipped net t (firstn k (u :: urls)) log = true
                    /\ (net (log ++ map (get_req t) (firstn k (u :: urls)))%list (GET v t)
                        = Raise e
                        \/ (parser_fault
                              (net (log ++ map (get_req t) (firstn k (u :: urls)))%list
                                   (GET v t)) = Some e
                            /\ caught_line_102 e = false))
                    /\ caught_line_105 e = false
                    /\ log' = ((log ++ map (get_req t) (firstn k (u :: urls))) ++ [GET v t])%list).
  { intros Hrest Hs. apply IH in Hrest as [k [v [Hn [Ha [Hr [Hc Hl]]]]]].
    exists (S k), v. simpl. rewrite Hs, Ha.
    unfold get_req at 1 3 5. rewrite <- !app_assoc in *. simpl in *. auto. }
  destruct (net log (GET u t)) as [resp|e0] eqn:En.
  - destruct (status_code resp =? 200)%Z eqn:Est.
    + destruct (fromstring (content resp)) as [root|e1] eqn:Ec.
      * destruct (findall_descendants root SITEMAP); [discriminate|].
        destruct (count_individual_sitemaps _ _ _ _ _). discriminate.
      * destruct (caught_line_102 e1 || caught_line_105 e1) eqn:Hc.
        -- apply Hnext; [assumption|]. simpl. rewrite Est, Ec. exact Hc.
        -- injection H as <- <-. apply orb_false_iff in Hc as [Hc1 Hc2].
           exists 0, u. simpl. rewrite app_nil_r, En.
           unfold parser_fault. rewrite Est, Ec. auto 6.
    + apply Hnext; [assumption|]. simpl. now rewrite Est.
  - destruct (caught_line_105 e0) eqn:Hc.
    + apply Hnext; assumption.
    + injection H as <- <-. exists 0, u. simpl. rewrite app_nil_r. auto.
Qed.

(** The requests of the loop: the log grows at its end, by at most one
    request per location and ten more, all with the timeout of the call. *)
Lemma try_sitemap_urls_requests urls : forall tp m log,
  exists new,
    snd (try_sitemap_urls net t urls tp m log) = (log ++ new)%list
    /\ length new <= length urls + 10
    /\ Forall (fun rq => req_timeout rq = t) new.
Proof.
  induction urls as [|u urls IH]; intros tp m log; cbn [try_sitemap_urls session_get snd].
  - exists []. rewrite app_nil_r. repeat split; [simpl; lia | constructor].
  - assert (Hnext : exists new,
               snd (try_sitemap_urls net t urls tp m (log ++ [GET u t])%list)
               = (log ++ new)%list
               /\ length new <= S (length urls + 10)
               /\ Forall (fun rq => req_timeout rq = t) new).
    { destruct (IH tp m (log ++ [GET u t])%list) as [new [Hs [Hl Hf]]].
      exists (GET u t :: new). rewrite Hs, <- app_assoc. simpl.
      repeat split; [simpl; lia | now constructor]. }
    assert (Hstop : exists new,
               (log ++ [GET u t])%list = (log ++ new)%list
               /\ length new <= S (length urls + 10)
               /\ Forall (fun rq => req_timeout rq = t) new).
    { exists [GET u t]. repeat split; [simpl; lia | now repeat constructor]. }
    destruct (net log (GET u t)) as [resp|e].
    + destruct (status_code resp =? 200)%Z; [|exact Hnext].
      destruct (fromstring (content resp)) as [root|e];
        [|destruct (_ || _); [exact Hnext | exact Hstop]].
      destruct (findall_descendants root SITEMAP) as [|el els]; [exact Hstop|].
      set (sm := firstn 10 (individual_sitemaps (el :: els))).
      pose proof (count_individual_sitemaps_log net t sm tp (log ++ [GET u t])%list) as Hlog.
      destruct (count_individual_sitemaps net t sm tp (log ++ [GET u t])%list) as [tot lg].
      cbn [snd] in *. subst lg.
      exists (GET u t :: map (get_req t) (listed_urls sm)).
      rewrite <- app_assoc. simpl. repeat split.
      * rewrite length_map.
        pose proof (listed_urls_length sm).
        pose proof (firstn_le_length 10 (individual_sitemaps (el :: els))).
        subst sm. lia.
      * constructor; [reflexivity|]. apply Forall_forall.
        intros rq Hrq. apply in_map_iff in Hrq as [v [<- _]]. reflexivity.
    + destruct (caught_line_105 e); [exact Hnext | exact Hstop].
Qed.

(** The count and the method the loop leaves go together. *)
Lemma try_sitemap_urls_coherent urls : forall tp m log pages method log',
  try_sitemap_urls net t urls tp m log = (Ret (pages, method), log') ->
  (pages = tp /\ method = m)
  \/ method = "Single sitemap"
  \/ exists n, method = index_method n.
Proof.
  induction urls as [|u urls IH]; intros tp m log pages method log' H; simpl in H.
  - injection H as <- <- _. now left.
  - destruct (net log (GET u t)) as [resp|e].
    + destruct (status_code resp =? 200)%Z; [|eauto].
      destruct (fromstring (content resp)) as [root|e];
        [|destruct (_ || _); [eauto | discriminate]].
      destruct (findall_descendants root SITEMAP).
      * injection H as _ <- _. right; now left.
      * destruct (count_individual_sitemaps _ _ _ _ _).
        injection H as _ <- _. right; right; eexists; reflexivity.
    + destruct (caught_line_105 e); [eauto | discriminate].
Qed.

End GetPageCountMore.

(** C5 (the code departs from it).  When the locations before a location
    have been passed over and that location answers 200 with a body on which
    the parser raises something other than [ParseError] (a [ValueError] for
    a document in a multi-byte encoding, a [LookupError] for one in an
    unknown encoding), the location is not passed over: the exception leaves
    [get_page_count], no later location is requested, whatever it would
    serve, and the batch records the domain as an error with 0 pages. *)
Theorem C5_parser_fault_ends_the_resolver
    (net : network) (domain : string) (t : Z) (log : list request)
    (k : nat) (u : string) (e : exc) :
  let urls := sitemap_urls domain in
  let log_k := (log ++ map (get_req t) (firstn k urls))%list in
  domain <> "" ->
  all_skipped net t (firstn k urls) log = true ->
  nth_error urls k = Some u ->
  parser_fault (net log_k (GET u t)) = Some e ->
  exc_type e <> ParseError ->
  get_page_count net (Some domain) t log = (Raise e, (log_k ++ [GET u t])%list)
  /\ handle_result (Some domain) (Raise e)
     = mkResult (Some domain) 0 ("Error: " ++ Str.take 50 (exc_str e)).
Proof.
  intros urls log_k Hd Hskip Hnth Hf He.
  destruct domain as [|c d]; [congruence|].
  assert (Hc : caught_line_102 e = false).
  { unfold caught_line_102. destruct (exc_type e); try reflexivity. congruence. }
  split.
  - rewrite get_page_count_eq.
    now rewrite (try_sitemap_urls_fault net t _ k u e) by assumption.
  - apply handle_result_error.
    destruct (parser_fault_class _ _ Hf) as [H|[H|H]]; rewrite H; reflexivity.
Qed.

(** C5, on a server whose first location serves a document in the encoding
    big5 and whose second location serves a leaf sitemap of four pages. *)
Lemma C5_parser_fault_ends_the_resolver_witness :
  parsed (big5_server [GET "https://a.com/sitemap.xml" 20]
                      (GET "https://www.a.com/sitemap.xml" 20)) = Some (urlset 4)
  /\ get_page_count big5_server (Some "a.com") 20 []
     = (Raise (mkExc ValueError "multi-byte encodings are not supported"),
        [GET "https://a.com/sitemap.xml" 20])
  /\ handle_result (Some "a.com")
                   (Raise (mkExc ValueError "multi-byte encodings are not supported"))
     = mkResult (Some "a.com") 0 "Error: multi-byte encodings are not supported".
Proof.
  split; [reflexivity|].
  apply (C5_parser_fault_ends_the_resolver big5_server "a.com" 20 [] 0
           "https://a.com/sitemap.xml"
           (mkExc ValueError "multi-byte encodings are not supported"));
    try reflexivity; discriminate.
Defined.

(** X7. What [get_page_count] raises was raised at one of the four sitemap
    locations, after the locations before it were passed over: either by the
    GET of that location, or by the parser on the body of its 200 response,
    and then it is no [ParseError].  It is neither a [RequestException] nor a
    [TimeoutError].  Nothing a child sitemap or the homepage raises leaves
    the function. *)
Theorem X7_get_page_count_raises_a_location_fault
    (net : network) (domain : option string) (t : Z)
    (log log' : list request) (e : exc) :
  get_page_count net domain t log = (Raise e, log') ->
  exists d k u,
    domain = Some d
    /\ nth_error (sitemap_urls d) k = Some u
    /\ all_skipped net t (firstn k (sitemap_urls d)) log = true
    /\ (net (log ++ map (get_req t) (firstn k (sitemap_urls d)))%list (GET u t) = Raise e
        \/ (parser_fault
              (net (log ++ map (get_req t) (firstn k (sitemap_urls d)))%list (GET u t))
            = Some e
            /\ exc_class_eqb (exc_type e) ParseError = false))
    /\ exc_class_eqb (exc_type e) RequestException = false
    /\ exc_class_eqb (exc_type e) TimeoutError = false
    /\ log' = ((log ++ map (get_req t) (firstn k (sitemap_urls d))) ++ [GET u t])%list.
Proof.
  destruct domain as [[|c d]|]; try discriminate.
  rewrite get_page_count_eq.
  destruct (try_sitemap_urls _ _ _ _ _ _) as [[[total m]|e0] log1] eqn:Hloop;
    [discriminate|].
  intros H. injection H as <- <-.
  apply try_sitemap_urls_raise_origin in Hloop as [k [u [Hn [Ha [Hr [Hc Hl]]]]]].
  apply orb_false_iff in Hc as [Hc1 Hc2].
  exists (String c d), k, u. auto 10.
Qed.

Lemma X7_get_page_count_raises_a_location_fault_witness :
  get_page_count big5_server (Some "a.com") 20 []
  = (Raise (mkExc ValueError "multi-byte encodings are not supported"),
     [GET "https://a.com/sitemap.xml" 20])
  /\ exists d k u,
       Some "a.com" = Some d
       /\ nth_error (sitemap_urls d) k = Some u
       /\ all_skipped big5_server 20 (firstn k (sitemap_urls d)) [] = true
       /\ (big5_server ([] ++ map (get_req 20) (firstn k (sitemap_urls d)))%list (GET u 20)
           = Raise (mkExc ValueError "multi-byte encodings are not supported")
           \/ (parser_fault
                 (big5_server ([] ++ map (get_req 20) (firstn k (sitemap_urls d)))%list
                              (GET u 20))
               = Some (mkExc ValueError "multi-byte encodings are not supported")
               /\ exc_class_eqb ValueError ParseError = false))
       /\ exc_class_eqb ValueError RequestException = false
       /\ exc_class_eqb ValueError TimeoutError = false
       /\ [GET "https://a.com/sitemap.xml" 20]
          = (([] ++ map (get_req 20) (firstn k (sitemap_urls d))) ++ [GET u 20])%list.
Proof.
  split; [reflexivity|].
  exact (X7_get_page_count_raises_a_location_fault big5_server (Some "a.com") 20 []
           [GET "https://a.com/sitemap.xml" 20]
           (mkExc ValueError "multi-byte encodings are not supported")
           eq_refl).
Defined.

(** X8. One call of [get_page_count] adds at most 15 requests to the log of
    its session, none before those that were there: four locations, ten
    child sitemaps, the homepage. *)
Theorem X8_get_page_count_request_bound
    (net : network) (domain : option string) (t : Z) (log : list request) :
  exists new,
    snd (get_page_count net domain t log) = (log ++ new)%list
    /\ length new <= 15.
Proof.
  destruct domain as [[|c d]|];
    try (exists []; simpl; rewrite app_nil_r; split; [reflexivity | lia]).
  rewrite get_page_count_eq.
  destruct (try_sitemap_urls_requests net t (sitemap_urls (String c d))
              0%Z "No sitemap found" log) as [new [Hs [Hl _]]].
  destruct (try_sitemap_urls _ _ _ _ _ _) as [[[total m]|e] log1]; cbn [snd] in *; subst log1.
  - rewrite homepage_check_eq. destruct (total =? 0)%Z; cbn [snd].
    + exists (new ++ [homepage (String c d)])%list. rewrite app_assoc.
      split; [reflexivity|]. rewrite length_app. simpl in *. lia.
    + exists new. split; [reflexivity|]. simpl in *. lia.
  - exists new. split; [reflexivity|]. simpl in *. lia.
Qed.

(** The bound of X8 is reached. *)
Example fifteen_requests :
  length (snd (get_page_count worst_case_server (Some "a.com") 20 [])) = 15.
Proof. reflexivity. Qed.

(** X9. Every request [get_page_count] issues carries the timeout passed to
    the call, except the GET of the homepage, which carries 5 seconds. *)
Theorem X9_get_page_count_timeouts
    (net : network) (domain : option string) (t : Z) (log : list request) :
  exists new,
    snd (get_page_count net domain t log) = (log ++ new)%list
    /\ Forall (fun rq =>
                 req_timeout rq = t
                 \/ (req_timeout rq = 5%Z
                     /\ exists d, domain = Some d /\ req_url rq = "https://" ++ d))
              new.
Proof.
  destruct domain as [[|c d]|];
    try (exists []; simpl; rewrite app_nil_r; split; [reflexivity | constructor]).
  rewrite get_page_count_eq.
  destruct (try_sitemap_urls_requests net t (sitemap_urls (String c d))
              0%Z "No sitemap found" log) as [new [Hs [_ Hf]]].
  assert (Hf' : Forall (fun rq =>
                 req_timeout rq = t
                 \/ (req_timeout rq = 5%Z
                     /\ exists d0, Some (String c d) = Some d0
                                   /\ req_url rq = "https://" ++ d0)) new).
  { eapply Forall_impl; [|exact Hf]. intros rq H. now left. }
  destruct (try_sitemap_urls _ _ _ _ _ _) as [[[total m]|e] log1]; cbn [snd] in *; subst log1.
  - rewrite homepage_check_eq. destruct (total =? 0)%Z; cbn [snd].
    + exists (new ++ [homepage (String c d)])%list. rewrite app_assoc.
      split; [reflexivity|]. apply Forall_app. split; [assumption|].
      constructor; [|constructor]. right. split; [reflexivity|]. eauto.
    + exists new. split; [reflexivity | assumption].
  - exists new. split; [reflexivity | assumption].
Qed.

(** X10. The count and the method [get_page_count] returns go together:
    "Invalid domain", "No sitemap found" and "Domain inaccessible" come with
    0; "Homepage only (estimate)" comes with 1; every other result is
    "Single sitemap" or "Sitemap index (N sitemaps)" with a count that is not
    negative. *)
Theorem X10_get_page_count_count_and_method
    (net : network) (domain : option string) (t : Z)
    (log log' : list request) (pages : Z) (method : string) :
  get_page_count net domain t log = (Ret (pages, method), log') ->
  (pages = 0%Z
   /\ (method = "Invalid domain" \/ method = "No sitemap found"
       \/ method = "Domain inaccessible"))
  \/ (pages = 1%Z /\ method = "Homepage only (estimate)")
  \/ ((0 <= pages)%Z
      /\ (method = "Single sitemap" \/ exists n, method = index_method n)).
Proof.
  destruct domain as [[|c d]|];
    try (intros H; injection H as <- <- _; left; auto).
  rewrite get_page_count_eq.
  destruct (try_sitemap_urls _ _ _ _ _ _) as [[[total m]|e] log1] eqn:Hloop;
    [|discriminate].
  pose proof (try_sitemap_urls_nonneg net t _ _ _ _ _ _ (Z.le_refl 0) Hloop) as Hnn.
  pose proof (try_sitemap_urls_coherent net t _ _ _ _ _ _ _ Hloop) as Hco.
  cbn [fst] in Hnn. rewrite homepage_check_eq. intros H.
  destruct (total =? 0)%Z eqn:Ez.
  - apply Z.eqb_eq in Ez. subst total. unfold after_homepage in H.
    destruct (net log1 (homepage (String c d))) as [resp|e].
    + destruct (status_code resp =? 200)%Z; injection H as <- <- _; [auto|].
      destruct Hco as [[_ ->]|Hm]; [left; auto | right; right; auto].
    + injection H as <- <- _. left. auto.
  - injection H as <- <- _.
    destruct Hco as [[-> _]|Hm]; [discriminate | right; right; auto].
Qed.

Lemma X10_get_page_count_count_and_method_witness :
  get_page_count homepage_server (Some "a.com") 20 []
  = (Ret (1%Z, "Homepage only (estimate)"),
     (map (get_req 20) (sitemap_urls "a.com") ++ [GET "https://a.com" 5])%list)
  /\ ((1%Z = 0%Z
       /\ ("Homepage only (estimate)" = "Invalid domain"
           \/ "Homepage only (estimate)" = "No sitemap found"
           \/ "Homepage only (estimate)" = "Domain inaccessible"))
      \/ (1%Z = 1%Z /\ "Homepage only (estimate)" = "Homepage only (estimate)")
      \/ ((0 <= 1)%Z
          /\ ("Homepage only (estimate)" = "Single sitemap"
              \/ exists n, "Homepage only (estimate)" = index_method n))).
Proof.
  split; [reflexivity|].
  exact (X10_get_page_count_count_and_method homepage_server (Some "a.com") 20 []
           (map (get_req 20) (sitemap_urls "a.com") ++ [GET "https://a.com" 5])
           1 "Homepage only (estimate)" eq_refl).
Defined.

(* ================================================================== *)
(** * More on [process_domains_batch] *)
(* ================================================================== *)

Lemma as_completed_expiry fs timeout e :
  snd (as_completed fs timeout) = Some e ->
  exc_type e = TimeoutError
  /\ exists f, In f fs /\ (timeout < fut_done_at f)%Z.
Proof.
  unfold as_completed. cbn [snd].
  destruct (List.filter (fun f => negb (fut_done_at f <=? timeout)%Z) fs) as [|g l] eqn:E;
    [discriminate|].
  intros H. injection H as <-. split; [reflexivity|].
  assert (Hg : In g (List.filter (fun f => negb (fut_done_at f <=? timeout)%Z) fs))
    by (rewrite E; now left).
  apply filter_In in Hg as [Hin Hlate]. exists g. split; [assumption|].
  apply negb_true_iff, Z.leb_gt in Hlate. assumption.
Qed.

Section BatchMore.

Variable world : nat -> task_world.

Lemma process_domains_batch_returns domains cb results :
  process_domains_batch world domains cb = Ret results ->
  forall j, j < length domains -> (tw_done_at (world j) <= 300)%Z.
Proof.
  intros Hret j Hj.
  destruct (Z_le_gt_dec (tw_done_at (world j)) 300) as [H|H]; [assumption|].
  exfalso.
  destruct (nth_error domains j) as [d|] eqn:Hd;
    [|apply nth_error_None in Hd; lia].
  pose proof (submit_all_nth world domains 0 j d Hd) as Hin.
  rewrite process_domains_batch_eq in Hret. cbv zeta in Hret.
  destruct (as_completed_pending
              (map fst (submit_all world 0 domains)) 300 (submit world (0 + j) d))
    as [e [He _]].
  - apply in_map_iff. exists (submit world (0 + j) d, d). split; [reflexivity|assumption].
  - simpl. lia.
  - rewrite He in Hret. discriminate.
Qed.

Lemma task_record_false_domain j d :
  truthy d = false -> task_record world j d = mkResult d 0 "Invalid domain".
Proof.
  destruct d as [[|c d]|]; try discriminate; reflexivity.
Qed.

End BatchMore.

(** X11. [process_domains_batch] raises nothing but the [TimeoutError] of
    its deadline, and only when a task is still running after 300 seconds:
    no fault of a task leaves it. *)
Theorem X11_batch_raises_only_at_the_deadline
    (world : nat -> task_world) (domains : list (option string))
    (cb : bool) (e : exc) :
  process_domains_batch world domains cb = Raise e ->
  exc_type e = TimeoutError
  /\ exists i, i < length domains /\ (300 < tw_done_at (world i))%Z.
Proof.
  rewrite process_domains_batch_eq. cbv zeta.
  destruct (snd (as_completed _ 300)) as [e0|] eqn:E; [|discriminate].
  intros H. injection H as <-.
  apply as_completed_expiry in E as [Ht [f [Hf Hlate]]]. split; [assumption|].
  apply in_map_iff in Hf as [[g d] [<- Hg]].
  apply submit_all_In in Hg as [j [Hj ->]]. exists j. split.
  - apply nth_error_Some. congruence.
  - exact Hlate.
Qed.

Lemma X11_batch_raises_only_at_the_deadline_witness :
  process_domains_batch stuck_world [Some "a.com"; Some "b.org"] true
  = Raise (mkExc TimeoutError "1 (of 2) futures unfinished")
  /\ exists i, i < 2 /\ (300 < tw_done_at (stuck_world i))%Z.
Proof.
  split; [reflexivity|].
  exact (proj2 (X11_batch_raises_only_at_the_deadline stuck_world
                  [Some "a.com"; Some "b.org"] true
                  (mkExc TimeoutError "1 (of 2) futures unfinished") eq_refl)).
Defined.

(** X12. [process_domains_batch] neither removes repetitions nor skips
    entries: when every task completes within 300 seconds it returns one
    record for each element of the list it is given, repeated elements
    included, and an element that is [None] or empty is recorded with 0 pages
    and "Invalid domain". *)
Theorem X12_batch_one_record_per_element
    (world : nat -> task_world) (domains : list (option string)) (cb : bool) :
  (forall j, j < length domains -> (tw_done_at (world j) <= 300)%Z) ->
  exists results,
    process_domains_batch world domains cb = Ret results
    /\ length results = length domains
    /\ Permutation (map Domain results) domains
    /\ Forall (fun r => if truthy (Domain r) then True
                        else Pages r = 0%Z /\ Method r = "Invalid domain") results.
Proof.
  intros Hdone.
  destruct (process_domains_batch_complete world domains cb Hdone)
    as [results [Heq [Hperm [Hrec _]]]].
  exists results. split; [assumption|]. split; [|split; [assumption|]].
  - rewrite <- (length_map Domain). now apply Permutation_length.
  - apply Forall_forall. intros r Hr.
    destruct (Hrec r Hr) as [j [d [_ ->]]].
    unfold task_record at 1. rewrite handle_result_domain.
    destruct (truthy d) eqn:E; [exact I|].
    rewrite (task_record_false_domain world j d E). split; reflexivity.
Qed.

Lemma X12_batch_one_record_per_element_witness :
  exists results,
    process_domains_batch missing_world [Some "a.com"; None; Some "a.com"] false
    = Ret results
    /\ length results = 3
    /\ Permutation (map Domain results) [Some "a.com"; None; Some "a.com"]
    /\ Forall (fun r => if truthy (Domain r) then True
                        else Pages r = 0%Z /\ Method r = "Invalid domain") results.
Proof.
  apply (X12_batch_one_record_per_element missing_world
           [Some "a.com"; None; Some "a.com"] false).
  intros j _. discriminate.
Defined.

(** X13. What a task raises is recorded, when the batch returns, with 0
    pages and the method "Error: " followed by the first 50 characters of
    the message; it is never recorded as "Timeout". *)
Theorem X13_task_fault_is_recorded
    (world : nat -> task_world) (domains : list (option string)) (cb : bool)
    (i : nat) (d : option string) (e : exc) :
  (forall j, j < length domains -> (tw_done_at (world j) <= 300)%Z) ->
  nth_error domains i = Some d ->
  fst (get_page_count (tw_net (world i)) d 20 []) = Raise e ->
  exists results,
    process_domains_batch world domains cb = Ret results
    /\ In (mkResult d 0 ("Error: " ++ Str.take 50 (exc_str e))) results
    /\ String.length (Str.take 50 (exc_str e)) <= 50.
Proof.
  intros Hdone Hi Hraise.
  destruct (process_domains_batch_complete world domains cb Hdone)
    as [results [Heq [_ [_ Hin]]]].
  exists results. split; [assumption|].
  assert (Hnt : exc_class_eqb (exc_type e) TimeoutError = false).
  { destruct (get_page_count (tw_net (world i)) d 20 []) as [r log'] eqn:E.
    cbn [fst] in Hraise. subst r.
    now apply get_page_count_raises in E. }
  destruct (handle_result_error d e Hnt) as [Hrec Hlen].
  split; [|assumption].
  specialize (Hin i d Hi). unfold task_record in Hin.
  now rewrite Hraise, Hrec in Hin.
Qed.

Lemma X13_task_fault_is_recorded_witness :
  exists results,
    process_domains_batch faulty_world [Some "a.com"] true = Ret results
    /\ In (mkResult (Some "a.com") 0
             "Error: 01234567890123456789012345678901234567890123456789") results
    /\ String.length "01234567890123456789012345678901234567890123456789" <= 50.
Proof.
  apply (X13_task_fault_is_recorded faulty_world [Some "a.com"] true 0 (Some "a.com")
           (mkExc OtherException
              "0123456789012345678901234567890123456789012345678901234567890"));
    try reflexivity.
  intros j _. discriminate.
Defined.

Lemma progress_numbers (c total : Z) (n : nat) :
  map (fun k => ((c + Z.of_nat k)%Z, total)) (seq 1 (S n))
  = ((c + 1)%Z, total)
    :: map (fun k => ((c + 1 + Z.of_nat k)%Z, total)) (seq 1 n).
Proof.
  cbn [seq map]. f_equal. rewrite <- seq_shift, map_map.
  apply map_ext. intros k. f_equal. lia.
Qed.

Lemma completion_loop_progress ftd total cb ys : forall st,
  (forall f, In f ys -> exists d, dict_get ftd f = Ret d) ->
  exists st',
    completion_loop ftd total cb ys st = Ret st'
    /\ completed st' = (completed st + Z.of_nat (length ys))%Z
    /\ length (results st') = length (results st) + length ys
    /\ progress_calls st'
       = (progress_calls st
          ++ if cb then map (fun k => ((completed st + Z.of_nat k)%Z, total))
                            (seq 1 (length ys))
             else [])%list.
Proof.
  induction ys as [|f ys IH]; intros st Hin.
  - exists st. simpl. repeat split; try lia.
    destruct cb; now rewrite app_nil_r.
  - destruct (Hin f (or_introl eq_refl)) as [d Hd].
    cbn [completion_loop]. rewrite Hd.
    edestruct IH as [st' [Hloop [Hc [Hr Hp]]]]; [intros g Hg; apply Hin; now right|].
    exists st'. split; [exact Hloop|]. cbn [completed results progress_calls] in *.
    split; [rewrite Hc; cbn [length]; lia|].
    split; [rewrite Hr, length_app; cbn [length]; lia|].
    rewrite Hp. destruct cb; [|now rewrite !app_nil_r].
    cbn [length]. rewrite progress_numbers, <- app_assoc. reflexivity.
Qed.

Lemma filter_map_length {A B} (f : A -> B) (p : B -> bool) (l : list A) :
  length (List.filter p (map f l)) = length (List.filter (fun x => p (f x)) l).
Proof.
  induction l as [|a l IH]; simpl; [reflexivity|].
  destruct (p (f a)); simpl; now rewrite IH.
Qed.

Lemma submit_all_done_at world ds : forall i,
  map (fun fd => fut_done_at (fst fd)) (submit_all world i ds)
  = map (fun j => tw_done_at (world j)) (seq i (length ds)).
Proof.
  induction ds as [|d ds IH]; intros i; simpl; [reflexivity|].
  now rewrite IH.
Qed.

(** X14. The loop of [process_domains_batch] runs once for every task that
    completes within 300 seconds, [m] of the [n] submitted.  With a callback
    it calls it [m] times, with (1, n), (2, n), ..., (m, n) in this order, so
    that the first argument is never 0 and never exceeds the second; without
    a callback it calls nothing.  It appends one record per round, and the
    batch returns these records unless the deadline expires. *)
Theorem X14_progress_callbacks
    (world : nat -> task_world) (domains : list (option string)) (cb : bool) :
  let n := length domains in
  let m := length (List.filter (fun j => (tw_done_at (world j) <=? 300)%Z) (seq 0 n)) in
  exists st,
    batch_loop world domains cb = Ret st
    /\ m <= n
    /\ completed st = Z.of_nat m
    /\ length (results st) = m
    /\ progress_calls st
       = (if cb then map (fun k => (Z.of_nat k, Z.of_nat n)) (seq 1 m) else [])
    /\ Forall (fun call => (1 <= fst call <= snd call)%Z) (progress_calls st)
    /\ process_domains_batch world domains cb
       = match snd (as_completed (map fst (submit_all world 0 domains)) 300) with
         | Some e => Raise e
         | None => Ret (results st)
         end.
Proof.
  intros n m. unfold batch_loop.
  set (ftd := submit_all world 0 domains).
  set (ys := fst (as_completed (map fst ftd) 300)).
  assert (Hys : forall f, In f ys -> exists d, dict_get ftd f = Ret d).
  { intros f Hf. subst ys. unfold as_completed in Hf. cbn [fst] in Hf.
    apply (Permutation_in _ (completion_order_perm _)) in Hf.
    apply filter_In in Hf as [Hf _]. apply in_map_iff in Hf as [[g d] [<- Hg]].
    exists d. now apply dict_get_submit_all. }
  assert (Hm : length ys = m).
  { subst ys m. unfold as_completed. cbn [fst].
    rewrite (Permutation_length (completion_order_perm _)).
    rewrite <- (filter_map_length (fun j => tw_done_at (world j))
                  (fun z => (z <=? 300)%Z) (seq 0 n)).
    subst n. rewrite <- submit_all_done_at. fold ftd.
    rewrite <- (map_map fst fut_done_at).
    now rewrite (filter_map_length fut_done_at (fun z => (z <=? 300)%Z)). }
  assert (Hmn : m <= n).
  { subst m. etransitivity; [apply filter_length_le|]. now rewrite length_seq. }
  destruct (completion_loop_progress ftd (Z.of_nat n) cb ys (mkLoop 0 [] 0 []) Hys)
    as [st [Hloop [Hc [Hr Hp]]]].
  cbn [completed results progress_calls length] in Hc, Hr, Hp.
  rewrite Hm in Hc, Hr, Hp.
  assert (Hcalls : progress_calls st
                   = if cb then map (fun k => (Z.of_nat k, Z.of_nat n)) (seq 1 m) else []).
  { rewrite Hp. simpl. destruct cb; reflexivity. }
  exists st.
  split; [exact Hloop|]. split; [exact Hmn|]. split; [lia|]. split; [lia|].
  split; [exact Hcalls|]. split.
  - apply Forall_forall. intros call Hcall. rewrite Hcalls in Hcall.
    destruct cb; [|contradiction].
    apply in_map_iff in Hcall as [k [<- Hk]]. apply in_seq in Hk. simpl. lia.
  - unfold process_domains_batch. fold ftd.
    destruct (as_completed (map fst ftd) 300) as [ys' expiry] eqn:E.
    subst ys. unfold n in Hloop. cbn [fst snd] in *. now rewrite Hloop.
Qed.

(** The calls and the records of a batch of three, in order of completion. *)
Example shuffled_batch :
  process_domains_batch shuffled_world [Some "a.com"; Some "b.org"; Some "c.net"] true
  = Ret [ mkResult (Some "b.org") 0 "No sitemap found";
          mkResult (Some "c.net") 0
            "Error: 01234567890123456789012345678901234567890123456789";
          mkResult (Some "a.com") 5 "Single sitemap" ]
  /\ batch_loop shuffled_world [Some "a.com"; Some "b.org"; Some "c.net"] true
     = Ret (mkLoop 3
              [ mkResult (Some "b.org") 0 "No sitemap found";
                mkResult (Some "c.net") 0
                  "Error: 01234567890123456789012345678901234567890123456789";
                mkResult (Some "a.com") 5 "Single sitemap" ]
              3 [(1, 3); (2, 3); (3, 3)]%Z).
Proof. split; reflexivity. Qed.

Lemma pages_partition (l : list DomainResult) :
  Forall (fun r => (0 <= Pages r)%Z) l ->
  successful l + length (failed_domains l) = length l.
Proof.
  unfold successful, failed_domains.
  induction 1 as [|r l Hr _ IH]; simpl; [reflexivity|].
  destruct (0 <? Pages r)%Z eqn:E1, (Pages r =? 0)%Z eqn:E2; simpl; lia.
Qed.

(** X15. For the records a batch returns, the number of successful scans
    (more than 0 pages) and the number of domains listed under issues
    (0 pages) add up to the number of domains processed, which is the
    number of domains submitted: no record falls outside both. *)
Theorem X15_successful_and_failed_add_up
    (world : nat -> task_world) (domains : list (option string)) (cb : bool)
    (results : list DomainResult) :
  process_domains_batch world domains cb = Ret results ->
  successful results + length (failed_domains results) = length results
  /\ length results = length domains.
Proof.
  intros Hret.
  pose proof (process_domains_batch_returns world domains cb results Hret) as Hdone.
  destruct (process_domains_batch_complete world domains cb Hdone)
    as [results' [Heq [Hperm [Hrec _]]]].
  rewrite Hret in Heq. injection Heq as <-. split.
  - apply pages_partition. apply Forall_forall. intros r Hr.
    destruct (Hrec r Hr) as [j [d [_ Hrd]]].
    now apply handle_result_sound in Hrd as [_ [Hp _]].
  - rewrite <- (length_map Domain). now apply Permutation_length.
Qed.

Lemma X15_successful_and_failed_add_up_witness :
  successful [ mkResult (Some "b.org") 0 "No sitemap found";
               mkResult (Some "c.net") 0
                 "Error: 01234567890123456789012345678901234567890123456789";
               mkResult (Some "a.com") 5 "Single sitemap" ]
  + length (failed_domains
              [ mkResult (Some "b.org") 0 "No sitemap found";
                mkResult (Some "c.net") 0
                  "Error: 01234567890123456789012345678901234567890123456789";
                mkResult (Some "a.com") 5 "Single sitemap" ])
  = 3
  /\ 3 = 3.
Proof.
  exact (X15_successful_and_failed_add_up shuffled_world
           [Some "a.com"; Some "b.org"; Some "c.net"] true _ eq_refl).
Defined.

(* ================================================================== *)
(** * [clean_domain] and the case of letters *)
(* ================================================================== *)

Section LowerCommutes.

Variable p : ascii -> bool.
Hypothesis p_lower : forall c, p (Str.lower_char c) = p c.

Lemma lower_lstrip_with s :
  Str.lstrip_with p (Str.lower s) = Str.lower (Str.lstrip_with p s).
Proof.
  induction s as [|c s IH]; simpl; [reflexivity|].
  rewrite p_lower. destruct (p c); [exact IH | reflexivity].
Qed.

Lemma lower_is_empty s : Str.is_empty (Str.lower s) = Str.is_empty s.
Proof. destruct s; reflexivity. Qed.

Lemma lower_rstrip_with s :
  Str.rstrip_with p (Str.lower s) = Str.lower (Str.rstrip_with p s).
Proof.
  induction s as [|c s IH]; simpl; [reflexivity|].
  rewrite p_lower, IH, lower_is_empty.
  destruct (p c && Str.is_empty (Str.rstrip_with p s)); reflexivity.
Qed.

End LowerCommutes.

Lemma isspace_lower_char c : Str.isspace (Str.lower_char c) = Str.isspace c.
Proof. destruct c as [[] [] [] [] [] [] [] []]; vm_compute; reflexivity. Qed.

Lemma lower_strip s : Str.strip (Str.lower s) = Str.lower (Str.strip s).
Proof.
  unfold Str.strip.
  rewrite (lower_lstrip_with _ isspace_lower_char).
  apply (lower_rstrip_with _ isspace_lower_char).
Qed.

(** The part of [clean_domain] after the host has been found. *)
Lemma finish_lower host :
  Str.rstrip_slash (sub_leading_www (Str.lower (Str.lower host)))
  = Str.rstrip_slash (sub_leading_www (Str.lower host)).
Proof. now rewrite lower_idem. Qed.

Lemma startswith_lower s pre :
  Str.lower pre = pre ->
  Str.startswith s pre = true -> Str.startswith (Str.lower s) pre = true.
Proof.
  unfold Str.startswith. revert s.
  induction pre as [|c pre IH]; intros [|d s] Hp H; simpl in *;
    try reflexivity; try discriminate.
  injection Hp as Hc Hpre.
  destruct (ascii_dec c d) as [<-|Hne]; [|discriminate].
  rewrite Hc. destruct (ascii_dec c c) as [_|Hne]; [|congruence].
  now apply IH.
Qed.

(** X17. For an input that is not an http(s) URL even after lower-casing,
    the case of its letters does not matter to [clean_domain]. *)
Theorem X17_clean_domain_bare_case_blind (s : string) :
  Str.startswith (Str.lower (Str.strip s)) "http://" = false ->
  Str.startswith (Str.lower (Str.strip s)) "https://" = false ->
  clean_domain (Some (Str.lower s)) = clean_domain (Some s).
Proof.
  intros H1 H2. rewrite !clean_domain_trimmed.
  rewrite lower_strip, H1, H2. cbn [orb].
  assert (H1' : Str.startswith (Str.strip s) "http://" = false).
  { destruct (Str.startswith (Str.strip s) "http://") eqn:E; [|reflexivity].
    apply (startswith_lower _ "http://" eq_refl) in E. congruence. }
  assert (H2' : Str.startswith (Str.strip s) "https://" = false).
  { destruct (Str.startswith (Str.strip s) "https://") eqn:E; [|reflexivity].
    apply (startswith_lower _ "https://" eq_refl) in E. congruence. }
  rewrite H1', H2'. cbn [orb]. now rewrite finish_lower.
Qed.

Lemma X17_clean_domain_bare_case_blind_witness :
  clean_domain (Some (Str.lower "WWW.Example.COM/")) = clean_domain (Some "WWW.Example.COM/").
Proof.
  apply (X17_clean_domain_bare_case_blind "WWW.Example.COM/"); reflexivity.
Defined.

(** A scheme in capitals is not taken for a scheme: the text is kept whole. *)
Example clean_domain_scheme_in_capitals :
  clean_domain (Some "HTTP://Example.com/") = Ret (Some "http://example.com")
  /\ clean_domain (Some (Str.lower "HTTP://Example.com/")) = Ret (Some "example.com").
Proof. split; reflexivity. Qed.

(* ================================================================== *)
(** * [clean_domain]: the normalizer of section 4.1 *)
(* ================================================================== *)

Lemma forallb_impl (p q : ascii -> bool) s :
  (forall c, p c = true -> q c = true) ->
  Str.forallb p s = true -> Str.forallb q s = true.
Proof.
  intros Hpq. induction s as [|c s IH]; simpl; [reflexivity|].
  intros H. apply andb_true_iff in H as [Hc Hs].
  now rewrite (Hpq c Hc), IH.
Qed.

Lemma forallb_In p s :
  Str.forallb p s = true -> forall c, In c (list_ascii_of_string s) -> p c = true.
Proof.
  induction s as [|d s IH]; simpl; [contradiction|].
  intros H c [<-|Hin]; apply andb_true_iff in H as [Hd Hs]; auto.
Qed.

(** What [rstrip] cuts off is made of the characters it strips. *)
Lemma rstrip_with_suffix p s :
  exists w, Str.forallb p w = true /\ s = Str.rstrip_with p s ++ w.
Proof.
  induction s as [|c s [w [Hw Hs]]]; simpl.
  - exists "". split; reflexivity.
  - destruct (p c) eqn:Hc; simpl.
    + destruct (Str.rstrip_with p s) eqn:Hr; simpl.
      * exists (String c w). simpl in Hs. subst s. simpl. rewrite Hc, Hw.
        split; reflexivity.
      * exists w. split; [assumption|]. simpl in Hs. now rewrite <- Hs.
    + exists w. split; [assumption|]. now rewrite <- Hs.
Qed.

(** What [rstrip] leaves does not end in a character it strips. *)
Lemma rstrip_with_last p s : forall a c,
  Str.rstrip_with p s = a ++ String c "" -> p c = false.
Proof.
  induction s as [|d s IH]; intros a c; simpl.
  - destruct a; discriminate.
  - destruct (p d && Str.is_empty (Str.rstrip_with p s)) eqn:E.
    + destruct a; discriminate.
    + destruct a as [|d' a]; simpl; intros H; injection H as -> H.
      * rewrite H in E. simpl in E. now rewrite andb_true_r in E.
      * now apply (IH a c).
Qed.

Lemma rstrip_with_kept p s :
  Str.forallb (fun c => negb (p c)) s = true -> Str.rstrip_with p s = s.
Proof.
  induction s as [|c s IH]; simpl; [reflexivity|].
  intros H. apply andb_true_iff in H as [Hc Hs].
  apply negb_true_iff in Hc. now rewrite Hc, IH.
Qed.

Lemma rstrip_with_app_plain p loc rest :
  Str.forallb (fun c => negb (p c)) loc = true ->
  Str.rstrip_with p (loc ++ rest) = loc ++ Str.rstrip_with p rest.
Proof.
  induction loc as [|c loc IH]; simpl; [reflexivity|].
  intros H. apply andb_true_iff in H as [Hc Hs].
  apply negb_true_iff in Hc. now rewrite Hc, IH.
Qed.

Lemma lstrip_with_kept p s :
  Str.forallb (fun c => negb (p c)) s = true -> Str.lstrip_with p s = s.
Proof.
  destruct s as [|c s]; simpl; [reflexivity|].
  intros H. apply andb_true_iff in H as [Hc _].
  apply negb_true_iff in Hc. now rewrite Hc.
Qed.

Lemma filter_kept p s :
  Str.forallb p s = true -> Str.filter p s = s.
Proof.
  induction s as [|c s IH]; simpl; [reflexivity|].
  intros H. apply andb_true_iff in H as [Hc Hs]. now rewrite Hc, IH.
Qed.

Lemma filter_app p a b : Str.filter p (a ++ b) = Str.filter p a ++ Str.filter p b.
Proof.
  induction a as [|c a IH]; simpl; [reflexivity|].
  destruct (p c); simpl; now rewrite IH.
Qed.

Lemma until_delim_app loc rest :
  Str.forallb (fun c => negb (Url.is_delim c)) loc = true ->
  path_query_fragment rest = true ->
  Url.until_delim (loc ++ rest) = loc.
Proof.
  intros Hl Hr. induction loc as [|c loc IH]; simpl in *.
  - destruct rest as [|c r]; simpl in *; [reflexivity | now rewrite Hr].
  - apply andb_true_iff in Hl as [Hc Hl].
    apply negb_true_iff in Hc. now rewrite Hc, IH.
Qed.

Lemma contains_none c s :
  Str.forallb (fun d => negb (Ascii.eqb c d)) s = true -> Str.contains c s = false.
Proof.
  induction s as [|d s IH]; simpl; [reflexivity|].
  intros H. apply andb_true_iff in H as [Hd Hs].
  apply negb_true_iff in Hd. now rewrite Hd, IH.
Qed.

Lemma startswith_app s pre :
  Str.startswith s pre = true -> s = pre ++ Str.drop (String.length pre) s.
Proof.
  unfold Str.startswith. revert s.
  induction pre as [|c pre IH]; intros [|d s] H; simpl in *;
    try reflexivity; try discriminate.
  destruct (ascii_dec c d) as [<-|Hne]; [|discriminate].
  now rewrite <- IH.
Qed.

Section PlainLocation.

Variable loc : string.
Hypothesis loc_plain : plain_location loc = true.

Lemma plain_location_forallb (q : ascii -> bool) :
  (forall c, is_location_char c = true -> q c = true) -> Str.forallb q loc = true.
Proof. intros H. exact (forallb_impl _ _ _ H loc_plain). Qed.

Lemma plain_location_no_space :
  Str.forallb (fun c => negb (Str.isspace c)) loc = true.
Proof.
  apply plain_location_forallb. intros c H. unfold is_location_char in H.
  repeat (apply andb_true_iff in H as [H ?]). assumption.
Qed.

Lemma plain_location_no_delim :
  Str.forallb (fun c => negb (Url.is_delim c)) loc = true.
Proof.
  apply plain_location_forallb. intros c H. unfold is_location_char in H.
  repeat (apply andb_true_iff in H as [H ?]). assumption.
Qed.

Lemma plain_location_safe :
  Str.forallb (fun c => negb (Url.is_unsafe c)) loc = true.
Proof.
  apply plain_location_forallb. intros c H. unfold is_location_char in H.
  repeat (apply andb_true_iff in H as [H ?]).
  apply Nat.ltb_lt in H. unfold Url.is_unsafe.
  apply negb_true_iff, orb_false_iff. split; [apply orb_false_iff; split|];
    apply Nat.eqb_neq; lia.
Qed.

Lemma plain_location_no_bracket :
  Str.contains "[" loc = false /\ Str.contains "]" loc = false.
Proof.
  split; apply contains_none; apply plain_location_forallb;
    intros c H; unfold is_location_char in H;
    repeat (apply andb_true_iff in H as [H ?]); assumption.
Qed.

Lemma plain_location_strip : Str.strip loc = loc.
Proof.
  unfold Str.strip.
  rewrite (lstrip_with_kept _ _ plain_location_no_space).
  apply rstrip_with_kept, plain_location_no_space.
Qed.

(** A plain location holds no [/], so it does not begin like a URL. *)
Lemma plain_location_not_a_url :
  Str.startswith loc "http://" = false /\ Str.startswith loc "https://" = false.
Proof.
  pose proof plain_location_no_delim as Hd.
  split.
  - destruct (Str.startswith loc "http://") eqn:E; [|reflexivity].
    apply startswith_app in E. rewrite E in Hd. simpl in Hd. discriminate.
  - destruct (Str.startswith loc "https://") eqn:E; [|reflexivity].
    apply startswith_app in E. rewrite E in Hd. simpl in Hd. discriminate.
Qed.

(** The network location of a URL made of a scheme, a plain location and a
    path, query or fragment. *)
Lemma netloc_plain scheme rest :
  scheme = "http://" \/ scheme = "https://" ->
  path_query_fragment rest = true ->
  Url.netloc (scheme ++ loc ++ rest) = Ret loc.
Proof.
  intros Hs Hr.
  assert (Hrest : path_query_fragment (Str.filter (fun c => negb (Url.is_unsafe c)) rest)
                  = true).
  { destruct rest as [|c r]; [reflexivity|]. simpl in *.
    assert (Hc : Url.is_unsafe c = false)
      by (destruct c as [[] [] [] [] [] [] [] []]; try reflexivity; discriminate).
    rewrite Hc. exact Hr. }
  assert (Hn : Url.until_delim
                 (Str.filter (fun c => negb (Url.is_unsafe c)) (loc ++ rest)) = loc).
  { rewrite filter_app, (filter_kept _ _ plain_location_safe).
    apply until_delim_app; [apply plain_location_no_delim | exact Hrest]. }
  destruct plain_location_no_bracket as [Hb1 Hb2].
  assert (Hsw : forall y, Str.startswith ("//" ++ y) "//" = true)
    by (intros [|c y]; reflexivity).
  set (safe := fun c => negb (Url.is_unsafe c)) in *.
  assert (Hurl : Url.after_scheme
                   (Str.filter safe
                      (Str.lstrip_with Url.is_c0_or_space (scheme ++ loc ++ rest)))
                 = "//" ++ Str.filter safe (loc ++ rest))
    by (destruct Hs as [-> | ->]; reflexivity).
  unfold Url.netloc. fold safe. cbv zeta.
  rewrite Hurl, Hsw.
  change (Str.drop 2 ("//" ++ Str.filter safe (loc ++ rest)))
    with (Str.filter safe (loc ++ rest)).
  rewrite Hn, Hb1, Hb2. reflexivity.
Qed.

End PlainLocation.

Lemma lower_char_fixed c :
  Str.lower_char c = c -> ~ (65 <= Str.code c <= 90).
Proof.
  destruct c as [[] [] [] [] [] [] [] []]; cbv; intros H [H1 H2];
    try discriminate H; lia.
Qed.

Lemma lower_fixed d :
  Str.lower d = d ->
  forall c, In c (list_ascii_of_string d) -> ~ (65 <= Str.code c <= 90).
Proof.
  induction d as [|a d IH]; simpl; [contradiction|].
  intros H c. injection H as Ha Hd. intros [<-|Hin].
  - now apply lower_char_fixed.
  - now apply IH.
Qed.

(** C8 as stated fails: what [clean_domain] takes from a URL is its network
    location, not its host.  The user information stays in the domain. *)
Lemma C8_user_information_is_kept :
  clean_domain (Some "https://user@example.com/") = Ret (Some "user@example.com")
  /\ host_of_netloc "user@example.com" = "example.com"
  /\ "user@example.com" <> "example.com".
Proof. repeat split. discriminate. Qed.

(** C8 (amended). [clean_domain] sends "https://WWW.Example.com/",
    "example.com" and "www.example.com" to "example.com", and "" and "   "
    (and [None]) to nothing.  A domain it yields is never empty, does not end
    in "/" and holds no capital letter A-Z.  From a URL that starts with
    http:// or https:// it takes the network location, which is the host
    together with any user information and port: for a plain network
    location followed by nothing or by a path, query or fragment, the result
    is that of the network location alone.  A text that does not start with
    a scheme, in either case of letters, is trimmed and lower-cased, and the
    domain is what remains of it without one leading "www." and without
    its trailing slashes; nothing when that is empty. *)
Theorem C8_clean_domain_takes_the_netloc :
  clean_domain (Some "https://WWW.Example.com/") = Ret (Some "example.com")
  /\ clean_domain (Some "example.com") = Ret (Some "example.com")
  /\ clean_domain (Some "www.example.com") = Ret (Some "example.com")
  /\ clean_domain (Some "") = Ret None
  /\ clean_domain (Some "   ") = Ret None
  /\ clean_domain None = Ret None
  /\ (forall s d,
        clean_domain (Some s) = Ret (Some d) ->
        d <> ""
        /\ (forall a, d <> a ++ "/")
        /\ (forall c, In c (list_ascii_of_string d) -> ~ (65 <= Str.code c <= 90)))
  /\ (forall scheme loc rest,
        scheme = "http://" \/ scheme = "https://" ->
        plain_location loc = true ->
        path_query_fragment rest = true ->
        clean_domain (Some (scheme ++ loc ++ rest)) = clean_domain (Some loc))
  /\ (forall s,
        Str.startswith (Str.lower (Str.strip s)) "http://" = false ->
        Str.startswith (Str.lower (Str.strip s)) "https://" = false ->
        exists d slashes,
          clean_domain (Some s) = Ret (if Str.is_empty d then None else Some d)
          /\ (forall c, In c (list_ascii_of_string slashes) -> c = "/"%char)
          /\ Str.lower (Str.strip s)
             = (if Str.startswith (Str.lower (Str.strip s)) "www." then "www." else "")
               ++ d ++ slashes).
Proof.
  do 6 (split; [reflexivity|]).
  split; [|split].
  - intros s d. rewrite clean_domain_trimmed.
    destruct_host; [|discriminate].
    pose proof (cleaned_shape host) as [Hs Hl]. cbv zeta in Hs, Hl.
    destruct (Str.rstrip_slash (sub_leading_www (Str.lower host))) as [|c0 d0] eqn:E;
      cbn [Str.is_empty]; [discriminate|].
    intros H. injection H as <-. split; [discriminate|]. split.
    + intros a Ha. rewrite <- E in Ha. unfold Str.rstrip_slash in Ha.
      apply rstrip_with_last in Ha. discriminate.
    + now apply lower_fixed.
  - intros scheme loc rest Hs Hloc Hrest. rewrite !clean_domain_trimmed.
    rewrite (plain_location_strip loc Hloc).
    destruct (plain_location_not_a_url loc Hloc) as [-> ->]. cbn [orb].
    assert (Hstrip : Str.strip (scheme ++ loc ++ rest)
                     = scheme ++ loc ++ Str.rstrip_with Str.isspace rest).
    { rewrite strip_app_kept
        by (destruct Hs as [-> | ->]; (reflexivity || discriminate)).
      now rewrite (rstrip_with_app_plain _ _ _ (plain_location_no_space loc Hloc)). }
    assert (Hrest' : path_query_fragment (Str.rstrip_with Str.isspace rest) = true).
    { destruct rest as [|c r]; [reflexivity|]. simpl in *.
      assert (Hc : Str.isspace c = false)
        by (destruct c as [[] [] [] [] [] [] [] []]; try reflexivity; discriminate).
      rewrite Hc. exact Hrest. }
    assert (Hurl : Str.startswith (Str.strip (scheme ++ loc ++ rest)) "http://"
                   || Str.startswith (Str.strip (scheme ++ loc ++ rest)) "https://"
                   = true).
    { rewrite Hstrip. generalize (loc ++ Str.rstrip_with Str.isspace rest).
      intros y. unfold Str.startswith.
      destruct Hs as [-> | ->]; destruct y; reflexivity. }
    rewrite Hurl, Hstrip.
    now rewrite (netloc_plain loc Hloc scheme _ Hs Hrest').
  - intros s H1 H2. rewrite clean_domain_trimmed.
    assert (H1' : Str.startswith (Str.strip s) "http://" = false).
    { destruct (Str.startswith (Str.strip s) "http://") eqn:E; [|reflexivity].
      apply (startswith_lower _ "http://" eq_refl) in E. congruence. }
    assert (H2' : Str.startswith (Str.strip s) "https://" = false).
    { destruct (Str.startswith (Str.strip s) "https://") eqn:E; [|reflexivity].
      apply (startswith_lower _ "https://" eq_refl) in E. congruence. }
    rewrite H1', H2'. cbn [orb].
    set (x := Str.lower (Str.strip s)).
    destruct (rstrip_with_suffix (fun c => Ascii.eqb c "/") (sub_leading_www x))
      as [w [Hw Hx]].
    exists (Str.rstrip_slash (sub_leading_www x)), w.
    split; [destruct (Str.rstrip_slash (sub_leading_www x)); reflexivity|].
    split.
    + intros c Hc. apply (forallb_In _ _ Hw) in Hc. now apply Ascii.eqb_eq in Hc.
    + unfold Str.rstrip_slash. rewrite <- Hx. unfold sub_leading_www.
      destruct (Str.startswith x "www.") eqn:E; [|reflexivity].
      exact (startswith_app _ _ E).
Qed.

(** C8 (amended), on a URL with user information, a port and a path, and on
    a bare text with capitals, a leading "www." and trailing slashes. *)
Lemma C8_clean_domain_takes_the_netloc_witness :
  (clean_domain (Some "https://user@Shop.Example.com:8080/a/b?q=1#top")
   = clean_domain (Some "user@Shop.Example.com:8080"))
  /\ ("user@shop.example.com:8080" <> ""
      /\ (forall a, "user@shop.example.com:8080" <> a ++ "/")
      /\ (forall c, In c (list_ascii_of_string "user@shop.example.com:8080") ->
                    ~ (65 <= Str.code c <= 90)))
  /\ exists d slashes,
       clean_domain (Some "  WWW.Example.com/shop// ")
       = Ret (if Str.is_empty d then None else Some d)
       /\ (forall c, In c (list_ascii_of_string slashes) -> c = "/"%char)
       /\ Str.lower (Str.strip "  WWW.Example.com/shop// ")
          = (if Str.startswith (Str.lower (Str.strip "  WWW.Example.com/shop// ")) "www."
             then "www." else "")
            ++ d ++ slashes.
Proof.
  destruct C8_clean_domain_takes_the_netloc
    as (_ & _ & _ & _ & _ & _ & Hshape & Hurl & Hbare).
  split; [|split].
  - apply (Hurl "https://" "user@Shop.Example.com:8080" "/a/b?q=1#top");
      [right; reflexivity | reflexivity | reflexivity].
  - apply (Hshape "https://user@Shop.Example.com:8080/a/b?q=1#top"
                  "user@shop.example.com:8080").
    reflexivity.
  - apply (Hbare "  WWW.Example.com/shop// "); reflexivity.
Defined.
